(** * hubspot-forms: the schema translator, the validation schema builder
      and the form controller of [src/components/hubspot-form.tsx]

    The development embeds three parts of the component:
    - [convertHubspotFormToConfig], the translation of a HubSpot form
      definition into the internal form configuration;
    - [generateZodSchema], the construction of the Zod validator;
    - the state updates of [fetchForm] and [onSubmit], and the choice of
      the view the component returns.

    [generateZodSchema] is a client of the Zod library (version 3).  The
    four classes it builds ([ZodString], [ZodArray], [ZodOptional],
    [ZodEffects]) are modelled with the methods each of them has and with
    their synchronous [_parse]; a TypeScript cast such as
    [(fieldSchema as z.ZodString)] does nothing at run time, so a method is
    looked up on the class of the object it is called on, and a call of a
    method the class lacks throws a [TypeError].

    JavaScript strings are modelled as [string], numbers as IEEE binary64
    floats, a [Record<string, T>] as a [gmap string T], a missing key of a
    record as [None]; this is how a plain object behaves at every name but
    those of the members of [Object.prototype] ([objectPrototypeNames]).
    The built-ins behind [Number(s)], [new URL(s)] and Zod's email pattern
    are parameters of the validator ([Runtime]).

    A render of the component is [HubspotForm]: the evaluation of the
    argument of [useForm], which builds the validator of the loaded
    configuration, followed by the chain of [return]s ([render]). *)

From Stdlib Require Import Ascii PrimFloat.
From stdpp Require Import gmap strings list fin_maps.

Local Open Scope string_scope.
Local Open Scope list_scope.

(** ** Data model (the TypeScript interfaces) *)

(** [{ label: string; value: string }], the element type of [options]. *)
Module FieldOption.
Record t := mk { label : string; value : string }.
End FieldOption.

(** [interface HubspotField]. *)
Module HubspotField.
Record t := mk {
  name : string;
  label : string;
  fieldType : string;
  required : bool;
  description : option string;
  placeholder : option string;
  options : option (list FieldOption.t)
}.
End HubspotField.

(** [interface HubspotFieldGroup]. *)
Module HubspotFieldGroup.
Record t := mk { fields : list HubspotField.t }.
End HubspotFieldGroup.

(** [interface HubspotFormData]. *)
Module HubspotFormData.
Record t := mk { name : string; fieldGroups : list HubspotFieldGroup.t }.
End HubspotFormData.

(** The union of string literals of [FormFieldConfig.type]. *)
Inductive FieldType :=
| text | email | select | multiselect | number | multi_line_text.

(** The string a [FieldType] is at run time. *)
Definition typeTag (t : FieldType) : string :=
  match t with
  | text => "text"
  | email => "email"
  | select => "select"
  | multiselect => "multiselect"
  | number => "number"
  | multi_line_text => "multi_line_text"
  end.

(** [FormFieldConfig.validation]; no function of the component sets it. *)
Module Validation.
Record t := mk {
  min : option nat;
  max : option nat;
  pattern : option string;
  message : option string
}.
End Validation.

(** [interface FormFieldConfig]. *)
Module FormFieldConfig.
Record t := mk {
  name : string;
  label : string;
  type : FieldType;
  placeholder : option string;
  description : option string;
  required : option bool;
  validation : option Validation.t;
  options : option (list FieldOption.t)
}.

Definition with_type (ty : FieldType) (c : t) : t :=
  mk (name c) (label c) ty (placeholder c) (description c) (required c)
     (validation c) (options c).

Definition with_options (o : option (list FieldOption.t)) (c : t) : t :=
  mk (name c) (label c) (type c) (placeholder c) (description c)
     (required c) (validation c) o.
End FormFieldConfig.

(** [interface FormConfig]. *)
Module FormConfig.
Record t := mk { name : string; fields : list FormFieldConfig.t }.
End FormConfig.

(** ** String helpers of the translator *)

(** [String.prototype.toLowerCase] on the ASCII letters.  The only use is
    the test [name.toLowerCase().includes("email")]; no character outside
    ASCII lower-cases to one of the letters of "email" alone, so the test
    sees the ASCII letters only. *)
Definition lowerAscii (c : ascii) : ascii :=
  let n := nat_of_ascii c in
  if (65 <=? n)%nat && (n <=? 90)%nat then ascii_of_nat (n + 32) else c.

Fixpoint toLowerCase (s : string) : string :=
  match s with
  | EmptyString => EmptyString
  | String c s' => String (lowerAscii c) (toLowerCase s')
  end.

(** [String.prototype.includes]: some suffix of [s] starts with [sub]. *)
Fixpoint includes (s sub : string) : bool :=
  String.prefix sub s ||
  match s with
  | EmptyString => false
  | String _ s' => includes s' sub
  end.

(** ** The schema translator *)

(** The body of the inner [forEach] of [convertHubspotFormToConfig]: the
    object literal, then the [switch] on [field.fieldType]. *)
Definition convertField (field : HubspotField.t) : FormFieldConfig.t :=
  let fieldConfig :=
    FormFieldConfig.mk
      (HubspotField.name field)
      (HubspotField.label field)
      text
      (HubspotField.placeholder field)
      (HubspotField.description field)
      (Some (HubspotField.required field))
      None
      None in
  let copyOptions :=
    option_map
      (map (fun opt => FieldOption.mk (FieldOption.label opt) (FieldOption.value opt)))
      (HubspotField.options field) in
  let ft := HubspotField.fieldType field in
  if String.eqb ft "email" then
    FormFieldConfig.with_type email fieldConfig
  else if String.eqb ft "dropdown" then
    FormFieldConfig.with_options copyOptions
      (FormFieldConfig.with_type select fieldConfig)
  else if String.eqb ft "multiple_checkboxes" then
    FormFieldConfig.with_options copyOptions
      (FormFieldConfig.with_type multiselect fieldConfig)
  else if String.eqb ft "number" then
    FormFieldConfig.with_type number fieldConfig
  else if String.eqb ft "multi_line_text" then
    FormFieldConfig.with_type text fieldConfig
  else if includes (toLowerCase (HubspotField.name field)) "email" then
    FormFieldConfig.with_type email fieldConfig
  else
    FormFieldConfig.with_type text fieldConfig.

(** [fields.push(fieldConfig)] for every field of a group, in order. *)
Definition pushGroup (fields : list FormFieldConfig.t) (group : HubspotFieldGroup.t)
  : list FormFieldConfig.t :=
  fold_left (fun acc field => acc ++ [convertField field])
            (HubspotFieldGroup.fields group) fields.

(** [convertHubspotFormToConfig]: a fresh [fields] array, the two nested
    [forEach] loops, the result object. *)
Definition convertHubspotFormToConfig (hubspotForm : HubspotFormData.t) : FormConfig.t :=
  let fields := fold_left pushGroup (HubspotFormData.fieldGroups hubspotForm) [] in
  FormConfig.mk (HubspotFormData.name hubspotForm) fields.

(** ** JavaScript values *)

(** [type FormValues = Record<string, string | string[]>]: the value a form
    field holds.  A key with no entry reads as [undefined]. *)
Inductive FieldValue :=
| FString (s : string)
| FStrings (l : list string).

(** The objects keyed by field names ([schema], the default values, the
    form values, the two records of [onSubmit]) are finite maps of their
    own entries.  A plain JavaScript object reads and writes as such a map
    at every name but those of the members of [Object.prototype], which it
    has without holding them: reading [values[name]] at one of them gives
    the inherited member, not [undefined], when the object has no entry of
    its own, and assigning to ["__proto__"] adds no entry.  The statements
    on the entry under a name that depend on it leave these names out. *)
Definition objectPrototypeNames : list string :=
  ["__proto__"; "constructor"; "hasOwnProperty"; "isPrototypeOf";
   "propertyIsEnumerable"; "toLocaleString"; "toString"; "valueOf";
   "__defineGetter__"; "__defineSetter__"; "__lookupGetter__";
   "__lookupSetter__"].

(** The values that reach a validator or leave it: a field value,
    [undefined] for a missing one, a number after the transform of a
    [number] field. *)
Inductive JsVal :=
| VUndefined
| VString (s : string)
| VStrings (l : list string)
| VNumber (x : float).

(** A field value as a JavaScript value. *)
Definition inject (v : FieldValue) : JsVal :=
  match v with
  | FString s => VString s
  | FStrings l => VStrings l
  end.

(** [values[key]] as a JavaScript value. *)
Definition readField (values : gmap string FieldValue) (key : string) : JsVal :=
  match values !! key with
  | Some v => inject v
  | None => VUndefined
  end.

(** A thrown [TypeError]. *)
Inductive JsError :=
| TypeError (message : string).

(** The outcome of running a function body: a value or a thrown error. *)
Inductive Completion (A : Type) :=
| Normal (a : A)
| Throw (e : JsError).
Arguments Normal {A} a.
Arguments Throw {A} e.

(** Sequencing: a thrown error skips the rest of the body. *)
#[global] Instance Completion_ret : MRet Completion := fun A a => Normal a.
#[global] Instance Completion_bind : MBind Completion := fun A B k c =>
  match c with
  | Normal a => k a
  | Throw e => Throw e
  end.

(** The built-ins the validators call and that this development does not
    implement: ECMAScript's [StringToNumber], the WHATWG URL parser behind
    [new URL(s)] (without a base), and the regular expression behind Zod's
    [.email()]. *)
Record Runtime := {
  StringToNumber : string -> float;
  URL_parses : string -> bool;
  emailRegex_test : string -> bool
}.

(** JavaScript truthiness: what [!val] negates. *)
Definition truthy (v : JsVal) : bool :=
  match v with
  | VUndefined => false
  | VString s => negb (String.eqb s "")
  | VStrings _ => true
  | VNumber x => negb (PrimFloat.eqb x PrimFloat.zero || PrimFloat.is_nan x)
  end.

(** [Array.prototype.toString] on an array of strings. *)
Definition joinStrings (l : list string) : string := String.concat "," l.

(** ** Zod: the classes [generateZodSchema] touches *)

(** A check of a [ZodString]: [{kind: "min", value, message}] or
    [{kind: "email", message}]. *)
Inductive StringCheck :=
| CheckMin (value : nat) (message : string)
| CheckEmail (message : string).

(** The [effect] of a [ZodEffects]; the closures are Rocq functions. *)
Inductive Effect :=
| Refinement (check : JsVal -> bool) (message : string)
| Transform (transform : JsVal -> JsVal).

(** A schema object, by class. *)
Inductive ZodType :=
| ZodString (checks : list StringCheck)
| ZodArray (element : ZodType) (minLength : option (nat * string))
| ZodOptional (innerType : ZodType)
| ZodEffects (schema : ZodType) (effect : Effect).

(** [z.object(shape)]. *)
Record ZodObject := z_object { shape : gmap string ZodType }.

(** An issue added to the parse context. *)
Inductive Issue :=
| invalid_type
| too_small (message : string)
| invalid_string (message : string)
| custom (message : string).

(** What [_parse] returns, with the issues it added: [INVALID] (status
    "aborted"), a value with status "dirty", a value with status "valid". *)
Inductive ParseReturn :=
| INVALID (issues : list Issue)
| DIRTY (value : JsVal) (issues : list Issue)
| OK (value : JsVal).

(** [isValid(result)]: the status is "valid"; [safeParse] succeeds on it. *)
Definition isValid (r : ParseReturn) : bool :=
  match r with
  | OK _ => true
  | _ => false
  end.

(** The status is "aborted". *)
Definition isAborted (r : ParseReturn) : bool :=
  match r with
  | INVALID _ => true
  | _ => false
  end.

(** The issues a parse added to the context. *)
Definition issuesOf (r : ParseReturn) : list Issue :=
  match r with
  | INVALID issues => issues
  | DIRTY _ issues => issues
  | OK _ => []
  end.

(** A value with the status its issues give it. *)
Definition withIssues (value : JsVal) (issues : list Issue) : ParseReturn :=
  match issues with
  | [] => OK value
  | _ => DIRTY value issues
  end.

(** *** The methods *)

(** [z.string()] and [z.array(element)]. *)
Definition z_string : ZodType := ZodString [].

Definition z_array (element : ZodType) : ZodType := ZodArray element None.

(** [.email({message})] exists on [ZodString] alone. *)
Definition zemail (s : ZodType) (message : string) : Completion ZodType :=
  match s with
  | ZodString checks => Normal (ZodString (checks ++ [CheckEmail message]))
  | _ => Throw (TypeError "fieldSchema.email is not a function")
  end.

(** [.min(value, {message})] exists on [ZodString], where it adds a check
    of the length of the string, and on [ZodArray], where it sets the
    minimum length of the array. *)
Definition zmin (s : ZodType) (value : nat) (message : string) : Completion ZodType :=
  match s with
  | ZodString checks => Normal (ZodString (checks ++ [CheckMin value message]))
  | ZodArray element _ => Normal (ZodArray element (Some (value, message)))
  | _ => Throw (TypeError "fieldSchema.min is not a function")
  end.

(** [.optional()], [.refine(check, {message})] and [.transform(f)] are
    methods of the base class [ZodType]: every schema has them. *)
Definition optional (s : ZodType) : ZodType := ZodOptional s.

Definition refine (s : ZodType) (check : JsVal -> bool) (message : string) : ZodType :=
  ZodEffects s (Refinement check message).

Definition transform (s : ZodType) (f : JsVal -> JsVal) : ZodType :=
  ZodEffects s (Transform f).

Section Validator.
Variable rt : Runtime.

(** *** Parsing *)

(** One check of [ZodString._parse]: the issue it adds, if any.
    [input.data.length] is the length of the string. *)
Definition runCheck (s : string) (c : StringCheck) : list Issue :=
  match c with
  | CheckMin value message =>
      if (String.length s <? value)%nat then [too_small message] else []
  | CheckEmail message =>
      if emailRegex_test rt s then [] else [invalid_string message]
  end.

(** [ZodArray._parse] on the length: the issue of [minLength]. *)
Definition runMinLength (l : list string) (minLength : option (nat * string))
  : list Issue :=
  match minLength with
  | Some (value, message) =>
      if (length l <? value)%nat then [too_small message] else []
  | None => []
  end.

(** [ParseStatus.mergeArray]: aborted when an element is; otherwise the
    array, dirty when the array or an element added an issue.  The
    elements are strings and the element schema of the component is
    [z.string()], which returns its input: the value is the array. *)
Definition mergeArray (l : list string) (own : list Issue)
           (results : list ParseReturn) : ParseReturn :=
  let issues := own ++ concat (map issuesOf results) in
  if existsb isAborted results then INVALID issues
  else withIssues (VStrings l) issues.

(** [_parse] of the four classes, on a synchronous parse. *)
Fixpoint parse (s : ZodType) (input : JsVal) : ParseReturn :=
  match s with
  | ZodString checks =>
      match input with
      | VString str => withIssues input (flat_map (runCheck str) checks)
      | _ => INVALID [invalid_type]
      end
  | ZodArray element minLength =>
      match input with
      | VStrings l =>
          mergeArray l (runMinLength l minLength)
                     (map (fun item => parse element (VString item)) l)
      | _ => INVALID [invalid_type]
      end
  | ZodOptional innerType =>
      match input with
      | VUndefined => OK VUndefined
      | _ => parse innerType input
      end
  | ZodEffects schema (Refinement check message) =>
      match parse schema input with
      | INVALID issues => INVALID issues
      | DIRTY value issues =>
          DIRTY value (if check value then issues else issues ++ [custom message])
      | OK value =>
          if check value then OK value else DIRTY value [custom message]
      end
  | ZodEffects schema (Transform f) =>
      match parse schema input with
      | OK value => OK (f value)
      | base => base
      end
  end.

(** [ZodObject._parse] with the default "strip" policy for unknown keys:
    every key of the shape is parsed on [data[key]]; [safeParse] succeeds
    when every one is valid. *)
Definition safeParse (o : ZodObject) (data : gmap string FieldValue) : bool :=
  bool_decide
    (map_Forall (fun key s => isValid (parse s (readField data key)) = true)
                (shape o)).

(** The validator of one key of the object, on one value. *)
Definition fieldAccepts (o : ZodObject) (key : string) (v : JsVal) : bool :=
  match shape o !! key with
  | Some s => isValid (parse s v)
  | None => false
  end.

(** *** The closures of [generateZodSchema] *)

(** [Number(val)]: [ToNumber] on the values a validator sees. *)
Definition Number (val : JsVal) : float :=
  match val with
  | VUndefined => PrimFloat.nan
  | VString s => StringToNumber rt s
  | VStrings l => StringToNumber rt (joinStrings l)
  | VNumber x => x
  end.

(** [isNaN] on a number. *)
Definition isNaN (x : float) : bool := PrimFloat.is_nan x.

(** [(val) => { const num = Number(val); return isNaN(num) ? val : num; }] *)
Definition numberTransform (val : JsVal) : JsVal :=
  let num := Number val in
  if isNaN num then val else VNumber num.

(** [(val) => !isNaN(Number(val))] *)
Definition numberCheck (val : JsVal) : bool := negb (isNaN (Number val)).

(** Whether [new URL(val)] returns: the argument is converted to a
    string first.  The decimal form of a number has no scheme, so with no
    base the parser fails on it. *)
Definition URL_constructs (val : JsVal) : bool :=
  match val with
  | VUndefined => URL_parses rt "undefined"
  | VString s => URL_parses rt s
  | VStrings l => URL_parses rt (joinStrings l)
  | VNumber _ => false
  end.

(** [(val) => { if (!val) return true; try { new URL(val); return true; }
    catch { return false; } }] *)
Definition websiteCheck (val : JsVal) : bool :=
  if negb (truthy val) then true else URL_constructs val.

(** *** [generateZodSchema] *)

(** The [switch] on [field.type]. *)
Definition baseSchema (field : FormFieldConfig.t) : Completion ZodType :=
  match FormFieldConfig.type field with
  | multiselect => Normal (z_array z_string)
  | email => zemail z_string "Please enter a valid email address."
  | number => Normal (transform z_string numberTransform)
  | multi_line_text => zmin z_string 1 "Please enter your message."
  | _ => Normal z_string
  end.

(** [if (field.required)]: [undefined] and [false] are falsy. *)
Definition isRequired (field : FormFieldConfig.t) : bool :=
  match FormFieldConfig.required field with
  | Some b => b
  | None => false
  end.

(** [field.type === "email"] and [field.type === "number"]. *)
Definition isEmailType (t : FieldType) : bool :=
  match t with email => true | _ => false end.

Definition isNumberType (t : FieldType) : bool :=
  match t with number => true | _ => false end.

(** The body of the [forEach] up to [schema[field.name] = fieldSchema]. *)
Definition fieldSchemaOf (field : FormFieldConfig.t) : Completion ZodType :=
  fieldSchema ← baseSchema field;
  fieldSchema ←
    (if isRequired field
     then zmin fieldSchema 1 (FormFieldConfig.label field +:+ " is required.")
     else Normal (optional fieldSchema));
  fieldSchema ←
    (if isEmailType (FormFieldConfig.type field)
     then zemail fieldSchema "Please enter a valid email address."
     else Normal fieldSchema);
  let fieldSchema :=
    if isNumberType (FormFieldConfig.type field)
    then refine fieldSchema numberCheck "Please enter a valid number."
    else fieldSchema in
  let fieldSchema :=
    if String.eqb (FormFieldConfig.name field) "website"
    then refine fieldSchema websiteCheck "Please enter a valid URL."
    else fieldSchema in
  Normal fieldSchema.

(** One turn of the [forEach]: the error of a method call leaves the
    function; otherwise the key is written, over an earlier one (an entry
    of its own for every name but ["__proto__"]). *)
Definition addField (schema : Completion (gmap string ZodType))
           (field : FormFieldConfig.t) : Completion (gmap string ZodType) :=
  schema ← schema;
  fieldSchema ← fieldSchemaOf field;
  Normal (<[FormFieldConfig.name field := fieldSchema]> schema).

Definition generateZodSchema (config : FormConfig.t) : Completion ZodObject :=
  schema ← fold_left addField (FormConfig.fields config) (Normal ∅);
  Normal (z_object schema).

End Validator.

(** ** The controller: [fetchForm] and [onSubmit] *)

(** What a thrown value is to [err instanceof Error ? err.message : ...]. *)
Inductive Thrown :=
| ErrorInstance (message : string)
| NotAnError.

(** How the promise of a collaborator settles. *)
Inductive Settled (A : Type) :=
| Resolved (result : A)
| Rejected (reason : Thrown).
Arguments Resolved {A} result.
Arguments Rejected {A} reason.

(** The result of [getHubspotForm]. *)
Module FetchResult.
Record t := mk {
  success : bool;
  data : option HubspotFormData.t;
  error : option string
}.
End FetchResult.

(** [data] of a submission result. *)
Module ResponseData.
Record t := mk {
  inlineMessage : option string;
  redirectUrl : option string;
  status : string;
  correlationId : option string
}.
End ResponseData.

(** The result of [submitHubspotForm], and the argument of
    [onSubmissionResponse]. *)
Module SubmissionResult.
Record t := mk {
  success : bool;
  data : option ResponseData.t;
  error : option string
}.
End SubmissionResult.

(** The argument of [submitHubspotForm]. *)
Module SubmissionPayload.
Record t := mk {
  formId : string;
  fields : gmap string FieldValue;
  fieldTypes : gmap string string;
  pageUrl : string;
  pageName : string
}.
End SubmissionPayload.

(** The argument of [onSubmissionData]. *)
Module SubmissionData.
Record t := mk {
  formId : string;
  fields : gmap string FieldValue;
  pageUrl : string;
  pageName : string
}.
End SubmissionData.

(** [HubspotFormProps]; a callback is given or not. *)
Module Props.
Record t := mk {
  formId : string;
  onSubmissionData : bool;
  onSubmissionResponse : bool
}.
End Props.

(** [window.location.href] and [document.title]. *)
Module Page.
Record t := mk { href : string; title : string }.
End Page.

(** A call of a callback of the host component. *)
Inductive HostCall :=
| CallSubmissionData (data : SubmissionData.t)
| CallSubmissionResponse (response : SubmissionResult.t).

(** The six [useState] cells and the values and default values that
    [useForm] keeps. *)
Module State.
Record t := mk {
  formConfig : option FormConfig.t;
  error : option string;
  loading : bool;
  submitError : option string;
  submitSuccess : bool;
  isSubmitting : bool;
  values : gmap string FieldValue;
  defaultValues : gmap string FieldValue
}.

(** The state of a fresh mount. *)
Definition initial : t := mk None None true None false false ∅ ∅.

Definition setFormConfig (c : FormConfig.t) (st : t) : t :=
  mk (Some c) (error st) (loading st) (submitError st) (submitSuccess st)
     (isSubmitting st) (values st) (defaultValues st).
Definition setError (e : string) (st : t) : t :=
  mk (formConfig st) (Some e) (loading st) (submitError st) (submitSuccess st)
     (isSubmitting st) (values st) (defaultValues st).
Definition setLoading (b : bool) (st : t) : t :=
  mk (formConfig st) (error st) b (submitError st) (submitSuccess st)
     (isSubmitting st) (values st) (defaultValues st).
Definition setSubmitError (e : option string) (st : t) : t :=
  mk (formConfig st) (error st) (loading st) e (submitSuccess st)
     (isSubmitting st) (values st) (defaultValues st).
Definition setSubmitSuccess (b : bool) (st : t) : t :=
  mk (formConfig st) (error st) (loading st) (submitError st) b
     (isSubmitting st) (values st) (defaultValues st).
Definition setIsSubmitting (b : bool) (st : t) : t :=
  mk (formConfig st) (error st) (loading st) (submitError st) (submitSuccess st)
     b (values st) (defaultValues st).
(** [form.reset(v)]: values and default values become [v]. *)
Definition formReset (v : gmap string FieldValue) (st : t) : t :=
  mk (formConfig st) (error st) (loading st) (submitError st) (submitSuccess st)
     (isSubmitting st) v v.
(** [form.reset()]: back to the default values. *)
Definition formResetToDefaults (st : t) : t :=
  mk (formConfig st) (error st) (loading st) (submitError st) (submitSuccess st)
     (isSubmitting st) (defaultValues st) (defaultValues st).
End State.

(** [e || fallback] on [string | undefined]: the empty string is falsy. *)
Definition orFallback (e : option string) (fallback : string) : string :=
  match e with
  | Some s => if String.eqb s "" then fallback else s
  | None => fallback
  end.

(** [err instanceof Error ? err.message : fallback] *)
Definition thrownMessage (reason : Thrown) (fallback : string) : string :=
  match reason with
  | ErrorInstance message => message
  | NotAnError => fallback
  end.

(** The [reduce] of [fetchForm]: the empty string per field, the empty
    array per multiselect field (an entry of its own for every name but
    ["__proto__"]). *)
Definition initialValues (config : FormConfig.t) : gmap string FieldValue :=
  fold_left
    (fun acc field =>
       <[FormFieldConfig.name field :=
           match FormFieldConfig.type field with
           | multiselect => FStrings []
           | _ => FString ""
           end]> acc)
    (FormConfig.fields config) ∅.

(** [fetchForm] from the point where [getHubspotForm(formId)] has settled:
    the [try] body, the [catch] and the [finally]. *)
Definition fetchForm (settled : Settled FetchResult.t) (st : State.t) : State.t :=
  let st :=
    match settled with
    | Resolved result =>
        match FetchResult.success result, FetchResult.data result with
        | true, Some data =>
            let config := convertHubspotFormToConfig data in
            State.formReset (initialValues config) (State.setFormConfig config st)
        | _, _ =>
            State.setError (orFallback (FetchResult.error result) "Failed to fetch form") st
        end
    | Rejected err =>
        State.setError (thrownMessage err "Failed to fetch form") st
    end in
  State.setLoading false st.

(** One turn of the [forEach] of [onSubmit].  [values[field.name]] is the
    entry of the form values, [undefined] without one, at every name that
    is not in [objectPrototypeNames]. *)
Definition collectField (values : gmap string FieldValue)
           (acc : gmap string FieldValue * gmap string string)
           (field : FormFieldConfig.t)
  : gmap string FieldValue * gmap string string :=
  let '(hubspotFields, fieldTypes) := acc in
  match values !! FormFieldConfig.name field with
  | Some value =>
      match FormFieldConfig.type field with
      | multiselect =>
          let arrayValue :=
            match value with
            | FStrings _ => value
            | FString s => FStrings [s]
            end in
          (<[FormFieldConfig.name field := arrayValue]> hubspotFields,
           <[FormFieldConfig.name field := "multiple_checkboxes"]> fieldTypes)
      | t =>
          (<[FormFieldConfig.name field := value]> hubspotFields,
           <[FormFieldConfig.name field := typeTag t]> fieldTypes)
      end
  | None => acc
  end.

(** [hubspotFields] and [fieldTypes] after [formConfig?.fields.forEach]. *)
Definition collectFields (formConfig : option FormConfig.t)
           (values : gmap string FieldValue)
  : gmap string FieldValue * gmap string string :=
  match formConfig with
  | Some config => fold_left (collectField values) (FormConfig.fields config) (∅, ∅)
  | None => (∅, ∅)
  end.

(** The argument of [submitHubspotForm] that [onSubmit] builds. *)
Definition buildPayload (props : Props.t) (page : Page.t)
           (formConfig : option FormConfig.t) (values : gmap string FieldValue)
  : SubmissionPayload.t :=
  let '(hubspotFields, fieldTypes) := collectFields formConfig values in
  SubmissionPayload.mk (Props.formId props) hubspotFields fieldTypes
                       (Page.href page) (Page.title page).

(** [onSubmissionResponse?.(r)] *)
Definition notifyResponse (props : Props.t) (r : SubmissionResult.t) : list HostCall :=
  if Props.onSubmissionResponse props then [CallSubmissionResponse r] else [].

Section Submit.
(** The server action [submitHubspotForm], by the way its promise settles. *)
Variable submitHubspotForm : SubmissionPayload.t -> Settled SubmissionResult.t.

(** [onSubmit(values)], run to the end of its [finally]: the new state and
    the calls of the host callbacks, in order. *)
Definition onSubmit (props : Props.t) (page : Page.t)
           (values : gmap string FieldValue) (st : State.t)
  : State.t * list HostCall :=
  let st := State.setIsSubmitting true st in
  let st := State.setSubmitError None st in
  let st := State.setSubmitSuccess false st in
  let payload := buildPayload props page (State.formConfig st) values in
  let calls :=
    if Props.onSubmissionData props
    then [CallSubmissionData
            (SubmissionData.mk (Props.formId props) (SubmissionPayload.fields payload)
                               (Page.href page) (Page.title page))]
    else [] in
  let '(st, calls) :=
    match submitHubspotForm payload with
    | Resolved result =>
        let calls := calls ++ notifyResponse props result in
        if SubmissionResult.success result
        then (State.formResetToDefaults (State.setSubmitSuccess true st), calls)
        else (State.setSubmitError
                (Some (orFallback (SubmissionResult.error result) "Failed to submit form"))
                st, calls)
    | Rejected error =>
        let errorMessage := thrownMessage error "Failed to submit form" in
        let errorResponse := SubmissionResult.mk false None (Some errorMessage) in
        (State.setSubmitError (Some errorMessage) st,
         calls ++ notifyResponse props errorResponse)
    end in
  (State.setIsSubmitting false st, calls).
End Submit.

(** Which [return] of the component body is taken, and the banners of the
    last one. *)
Inductive View :=
| LoadingView
| ErrorView (message : string)
| NoConfigView
| FormView (title : string) (successBanner : bool) (errorBanner : option string)
           (submitDisabled : bool).

(** [x && <div>…</div>] on [string | null]. *)
Definition shown (x : option string) : option string :=
  match x with
  | Some s => if String.eqb s "" then None else Some s
  | None => None
  end.

(** The chain of [if]s before the final [return] of the component: what
    the body returns once its hooks have run.  The hooks come first, see
    [HubspotForm] below. *)
Definition render (st : State.t) : View :=
  if State.loading st then LoadingView
  else match shown (State.error st) with
       | Some message => ErrorView message
       | None =>
           match State.formConfig st with
           | None => NoConfigView
           | Some formConfig =>
               FormView (FormConfig.name formConfig) (State.submitSuccess st)
                        (shown (State.submitError st)) (State.isSubmitting st)
           end
       end.

(** One evaluation of the body of the component in a state.  The
    argument of [useForm] is evaluated on every render, before any
    [return]: with a configuration loaded, [resolver] is
    [zodResolver(generateZodSchema(formConfig))], so that an error thrown
    by the builder is thrown by the render; with none it is [undefined].
    The body then returns by the chain of [if]s. *)
Definition HubspotForm (rt : Runtime) (st : State.t) : Completion View :=
  match State.formConfig st with
  | Some formConfig =>
      resolver ← generateZodSchema rt formConfig;
      Normal (render st)
  | None => Normal (render st)
  end.

(** What the controller reacts to after the first render: the request of a
    run of the fetch effect settles, or the form is submitted. *)
Inductive Event :=
| FetchSettled (settled : Settled FetchResult.t)
| Submitted (values : gmap string FieldValue).

Section Controller.
Variable submitHubspotForm : SubmissionPayload.t -> Settled SubmissionResult.t.
Variable props : Props.t.
Variable page : Page.t.

(** The state after an event, and after a sequence of events. *)
Definition step (st : State.t) (e : Event) : State.t :=
  match e with
  | FetchSettled settled => fetchForm settled st
  | Submitted values => (onSubmit submitHubspotForm props page values st).1
  end.

Definition run (events : list Event) (st : State.t) : State.t :=
  fold_left step events st.

End Controller.

(** * Definitions for the statements *)

(** ** The mapping policy of the translator *)

(** The field name contains "email" up to the case of its letters: some
    substring of it lower-cases to "email". *)
Definition mentionsEmail (name : string) : Prop :=
  exists pre mid post, name = pre +:+ mid +:+ post /\ toLowerCase mid = "email".

(** The same, letter by letter and without the lower-casing of the code:
    five consecutive characters of the name are an [e] or [E], an [m] or
    [M], an [a] or [A], an [i] or [I] and an [l] or [L]. *)
Definition spellsEmail (mid : string) : Prop :=
  exists c1 c2 c3 c4 c5 : ascii,
    mid = String c1 (String c2 (String c3 (String c4 (String c5 "")))) /\
    (c1 = "e" \/ c1 = "E")%char /\ (c2 = "m" \/ c2 = "M")%char /\
    (c3 = "a" \/ c3 = "A")%char /\ (c4 = "i" \/ c4 = "I")%char /\
    (c5 = "l" \/ c5 = "L")%char.

Definition containsEmailAnyCase (name : string) : Prop :=
  exists pre mid post, name = pre +:+ mid +:+ post /\ spellsEmail mid.

(** The external type tags with a rule of their own. *)
Definition recognised (fieldType : string) : Prop :=
  fieldType = "email" \/ fieldType = "dropdown" \/
  fieldType = "multiple_checkboxes" \/ fieldType = "number" \/
  fieldType = "multi_line_text".

(** The type mapping policy of the translator, rule by rule: the internal
    type and the options a field definition is given. *)
Inductive TypePolicy (f : HubspotField.t)
  : FieldType -> option (list FieldOption.t) -> Prop :=
| policy_email :
    HubspotField.fieldType f = "email" -> TypePolicy f email None
| policy_dropdown :
    HubspotField.fieldType f = "dropdown" ->
    TypePolicy f select (HubspotField.options f)
| policy_checkboxes :
    HubspotField.fieldType f = "multiple_checkboxes" ->
    TypePolicy f multiselect (HubspotField.options f)
| policy_number :
    HubspotField.fieldType f = "number" -> TypePolicy f number None
| policy_multi_line :
    HubspotField.fieldType f = "multi_line_text" -> TypePolicy f text None
| policy_name_email :
    ~ recognised (HubspotField.fieldType f) ->
    mentionsEmail (HubspotField.name f) -> TypePolicy f email None
| policy_default :
    ~ recognised (HubspotField.fieldType f) ->
    ~ mentionsEmail (HubspotField.name f) -> TypePolicy f text None.

(** The translation of the fields of the groups, group after group. *)
Definition translated (groups : list HubspotFieldGroup.t) : list FormFieldConfig.t :=
  flat_map (fun group => map convertField (HubspotFieldGroup.fields group)) groups.

(** [n] calls of the translator on one form, one after the other. *)
Fixpoint translateTimes (n : nat) (hubspotForm : HubspotFormData.t) : list FormConfig.t :=
  match n with
  | O => []
  | S n' => convertHubspotFormToConfig hubspotForm :: translateTimes n' hubspotForm
  end.

(** ** Fields by name, and the validator on one value *)

(** The field a configuration holds under a name: the last one declared
    with it, whose write to [schema[field.name]] (and to the records of
    [onSubmit]) is the one that stays.  With distinct names it is the field
    of that name. *)
Fixpoint fieldNamed (fields : list FormFieldConfig.t) (key : string)
  : option FormFieldConfig.t :=
  match fields with
  | [] => None
  | field :: rest =>
      match fieldNamed rest key with
      | Some later => Some later
      | None => if String.eqb (FormFieldConfig.name field) key then Some field else None
      end
  end.

(** The fields on which a method call of the builder fails: [.email] on
    the [ZodOptional] of an optional email field, [.min] on the
    [ZodEffects] of a required number field. *)
Definition builderThrows (field : FormFieldConfig.t) : bool :=
  match FormFieldConfig.type field with
  | email => negb (isRequired field)
  | number => isRequired field
  | _ => false
  end.

(** The validator [generateZodSchema] makes, on one key and one value; an
    error of the builder is the result. *)
Definition validate (rt : Runtime) (config : FormConfig.t) (key : string) (v : JsVal)
  : Completion bool :=
  o ← generateZodSchema rt config; Normal (fieldAccepts rt o key v).

(** What a field with a value contributes to the two records. *)
Definition payloadEntry (field : FormFieldConfig.t) (value : FieldValue)
  : FieldValue * string :=
  match FormFieldConfig.type field with
  | multiselect =>
      (match value with
       | FStrings _ => value
       | FString s => FStrings [s]
       end, "multiple_checkboxes")
  | t => (value, typeTag t)
  end.

(** The render of a state returns: no configuration is loaded, or
    [generateZodSchema] returns on the one that is. *)
Definition renders (rt : Runtime) (st : State.t) : Prop :=
  exists view, HubspotForm rt st = Normal view.

(** The events that keep the error view.  A later fetch that throws an
    [Error] with an empty message clears it; a later fetch that loads a
    form on which [generateZodSchema] throws makes the render throw.  All
    other events keep it. *)
Definition keepsErrorView (rt : Runtime) (e : Event) : Prop :=
  match e with
  | FetchSettled (Rejected reason) => reason <> ErrorInstance ""
  | FetchSettled (Resolved result) =>
      match FetchResult.success result, FetchResult.data result with
      | true, Some data =>
          exists o, generateZodSchema rt (convertHubspotFormToConfig data) = Normal o
      | _, _ => True
      end
  | Submitted _ => True
  end.

(** ** A runtime and data for the examples *)

(** ASCII digits and letters. *)
Definition isDigit (c : ascii) : bool :=
  let n := nat_of_ascii c in (48 <=? n)%nat && (n <=? 57)%nat.

Definition isAlpha (c : ascii) : bool :=
  let n := nat_of_ascii c in
  ((65 <=? n)%nat && (n <=? 90)%nat) || ((97 <=? n)%nat && (n <=? 122)%nat).

(** The value of a digit. *)
Definition digitFloat (c : ascii) : float :=
  match (nat_of_ascii c - 48)%nat with
  | 0 => 0 | 1 => 1 | 2 => 2 | 3 => 3 | 4 => 4
  | 5 => 5 | 6 => 6 | 7 => 7 | 8 => 8 | _ => 9
  end%float.

(** The number a run of decimal digits denotes; [NaN] on another character. *)
Fixpoint decimalDigits (s : string) (acc : float) : float :=
  match s with
  | EmptyString => acc
  | String c s' =>
      if isDigit c
      then decimalDigits s' (PrimFloat.add (PrimFloat.mul acc 10%float) (digitFloat c))
      else PrimFloat.nan
  end.

(** A scheme: a letter, then letters, digits, [+], [-] or [.], then a colon. *)
Fixpoint schemeTail (s : string) : bool :=
  match s with
  | EmptyString => false
  | String c s' =>
      if Ascii.eqb c ":" then true
      else (isAlpha c || isDigit c || Ascii.eqb c "+" || Ascii.eqb c "-" || Ascii.eqb c ".")
           && schemeTail s'
  end.

Definition startsWithScheme (s : string) : bool :=
  match s with
  | EmptyString => false
  | String c s' => isAlpha c && schemeTail s'
  end.

(** What follows the first [@]. *)
Fixpoint afterAt (s : string) : option string :=
  match s with
  | EmptyString => None
  | String c s' => if Ascii.eqb c "@" then Some s' else afterAt s'
  end.

Definition localAtDomain (s : string) : bool :=
  match afterAt s with
  | Some domain =>
      negb (String.prefix "@" s) && includes domain "." && negb (includes domain "@")
  | None => false
  end.

(** A runtime to evaluate the examples with.  Each function is a
    simplification that agrees with the built-in on the strings the
    examples use: [StringToNumber] reads the empty string as [+0] and a run
    of decimal digits as its value, and gives [NaN] on the rest; a string
    parses as a URL when it starts with a scheme; a string is an email when
    it has the shape local@domain with a dot in the domain. *)
Definition exampleRuntime : Runtime :=
  {| StringToNumber := fun s => decimalDigits s PrimFloat.zero;
     URL_parses := startsWithScheme;
     emailRegex_test := localAtDomain |}.

(** A field with a name, a type and a required flag, and nothing else. *)
Definition plainField (name : string) (type : FieldType) (required : bool)
  : FormFieldConfig.t :=
  FormFieldConfig.mk name name type None None (Some required) None None.

(** A form of the given fields. *)
Definition formOf (fields : list FormFieldConfig.t) : FormConfig.t :=
  FormConfig.mk "Contact" fields.

(** A required multiselect field. *)
Definition colorsForm : FormConfig.t := formOf [plainField "colors" multiselect true].

(** Three fields that are not required. *)
Definition optionalForm : FormConfig.t :=
  formOf [plainField "firstname" text false;
          plainField "message" multi_line_text false;
          plainField "age" number false].

(** A text field named "website". *)
Definition websiteForm : FormConfig.t := formOf [plainField "website" text false].

(** A HubSpot form and the state the controller is in once it is loaded. *)
Definition contactForm : HubspotFormData.t :=
  HubspotFormData.mk "Contact"
    [HubspotFieldGroup.mk
       [HubspotField.mk "firstname" "First name" "single_line_text" true None None None];
     HubspotFieldGroup.mk
       [HubspotField.mk "colors" "Colors" "multiple_checkboxes" false None None
          (Some [FieldOption.mk "Red" "red"; FieldOption.mk "Blue" "blue"])]].

(** A HubSpot form with an email field that is not required. *)
Definition newsletterForm : HubspotFormData.t :=
  HubspotFormData.mk "Newsletter"
    [HubspotFieldGroup.mk
       [HubspotField.mk "email" "Email" "email" false None None None]].

(** The state after the mount and a successful fetch of [contactForm]. *)
Definition readyState : State.t :=
  fetchForm (Resolved (FetchResult.mk true (Some contactForm) None)) State.initial.

(** The host of the examples: both callbacks given. *)
Definition hostProps : Props.t := Props.mk "form-1" true true.
Definition hostPage : Page.t := Page.mk "https://host.example/contact" "Contact us".

(** Values of the two fields of [contactForm]. *)
Definition filledValues : gmap string FieldValue :=
  {[ "firstname" := FString "Ada"; "colors" := FStrings ["red"] ]}.

(** * The rest of the component, its host and the configuration *)

(** ** The controls of [renderField] *)

(** What [renderField] returns for a field: the checkboxes of a
    multiselect field, one per option; the select box of a select field,
    with its placeholder and one item per option; an input otherwise, of
    type "email" for an email field and "text" for the rest. *)
Inductive Control :=
| Checkboxes (options : list FieldOption.t)
| SelectBox (placeholder : string) (options : list FieldOption.t)
| InputBox (inputType : string) (placeholder : option string).

(** [field.options?.map(...)]: nothing is rendered without options. *)
Definition optionsOf (field : FormFieldConfig.t) : list FieldOption.t :=
  match FormFieldConfig.options field with
  | Some options => options
  | None => []
  end.

Definition renderField (field : FormFieldConfig.t) : Control :=
  match FormFieldConfig.type field with
  | multiselect => Checkboxes (optionsOf field)
  | select =>
      SelectBox (orFallback (FormFieldConfig.placeholder field) "Select an option")
                (optionsOf field)
  | t =>
      InputBox (match t with email => "email" | _ => "text" end)
               (FormFieldConfig.placeholder field)
  end.

(** [(form.getValues(field.name) as string[]) || []]: the cast does
    nothing; a missing value and the empty string are falsy. *)
Definition currentValues (values : gmap string FieldValue) (name : string) : FieldValue :=
  match values !! name with
  | None => FStrings []
  | Some (FString s) => if String.eqb s "" then FStrings [] else FString s
  | Some (FStrings l) => FStrings l
  end.

(** The [checked] property of the checkbox of an option:
    [currentValues.includes(option.value)], which on an array is
    membership and on a string the substring test. *)
Definition isChecked (values : gmap string FieldValue) (name optionValue : string) : bool :=
  match currentValues values name with
  | FStrings l => bool_decide (optionValue ∈ l)
  | FString s => includes s optionValue
  end.

(** [[...s]] on a string: one element per character. *)
Fixpoint spread (s : string) : list string :=
  match s with
  | EmptyString => []
  | String c s' => String c EmptyString :: spread s'
  end.

(** [onCheckedChange] of the checkbox of an option, then
    [form.setValue(field.name, newValues)].  A string has no [filter]. *)
Definition onCheckedChange (values : gmap string FieldValue) (name optionValue : string)
           (checked : bool) : Completion (gmap string FieldValue) :=
  match currentValues values name with
  | FStrings l =>
      let newValues :=
        if checked then l ++ [optionValue]
        else filter (fun v => v <> optionValue) l in
      Normal (<[name := FStrings newValues]> values)
  | FString s =>
      if checked
      then Normal (<[name := FStrings (spread s ++ [optionValue])]> values)
      else Throw (TypeError "currentValues.filter is not a function")
  end.

(** [form.setValue(field.name, value)] of the select box, and the change
    handler that [form.register(field.name)] gives an input. *)
Definition setValue (values : gmap string FieldValue) (name value : string)
  : gmap string FieldValue :=
  <[name := FString value]> values.

(** What a user does to a control. *)
Inductive Edit :=
| Toggle (optionValue : string) (checked : bool)
| Choose (value : string)
| TypeText (typed : string).

(** The values an option list offers. *)
Definition optionValues (options : list FieldOption.t) : list string :=
  map FieldOption.value options.

(** The handler a control runs on an edit.  A control has a checkbox or an
    item only for its options, and no handler for the edits of another
    kind of control. *)
Definition applyEdit (control : Control) (name : string) (edit : Edit)
           (values : gmap string FieldValue) : Completion (gmap string FieldValue) :=
  match control, edit with
  | Checkboxes options, Toggle optionValue checked =>
      if bool_decide (optionValue ∈ optionValues options)
      then onCheckedChange values name optionValue checked
      else Normal values
  | SelectBox _ options, Choose value =>
      if bool_decide (value ∈ optionValues options)
      then Normal (setValue values name value)
      else Normal values
  | InputBox _ _, TypeText typed => Normal (setValue values name typed)
  | _, _ => Normal values
  end.

(** [setValue] on the state of the form. *)
Definition setValues (v : gmap string FieldValue) (st : State.t) : State.t :=
  State.mk (State.formConfig st) (State.error st) (State.loading st)
           (State.submitError st) (State.submitSuccess st) (State.isSubmitting st)
           v (State.defaultValues st).

(** What happens to a mounted form: an event of the controller, or an edit
    of the control of the field at a position of the configuration. *)
Inductive Interaction :=
| External (e : Event)
| Edited (index : nat) (edit : Edit).

Section Interactions.
Variable submitHubspotForm : SubmissionPayload.t -> Settled SubmissionResult.t.
Variable props : Props.t.
Variable page : Page.t.

(** The controls exist in the form view alone; an error of a handler
    leaves the state as it is.  An edit is taken whenever the chain of
    [return]s gives the form view, which covers every state whose render
    returns it. *)
Definition interact (st : State.t) (i : Interaction) : State.t :=
  match i with
  | External e => step submitHubspotForm props page st e
  | Edited index edit =>
      match render st, State.formConfig st with
      | FormView _ _ _ _, Some formConfig =>
          match FormConfig.fields formConfig !! index with
          | Some field =>
              match applyEdit (renderField field) (FormFieldConfig.name field) edit
                              (State.values st) with
              | Normal values => setValues values st
              | Throw _ => st
              end
          | None => st
          end
      | _, _ => st
      end
  end.

Definition interactions (l : list Interaction) (st : State.t) : State.t :=
  fold_left interact l st.

End Interactions.

(** ** The host: [HubspotFormContainer] *)

(** The two [useState] cells of the container. *)
Module Container.
Record t := mk {
  submissionData : option SubmissionData.t;
  submissionResponse : option SubmissionResult.t
}.

Definition initial : t := mk None None.
End Container.

Definition handleFormSubmit (data : SubmissionData.t) (c : Container.t) : Container.t :=
  Container.mk (Some data) (Container.submissionResponse c).

Definition handleFormResponse (response : SubmissionResult.t) (c : Container.t)
  : Container.t :=
  Container.mk (Container.submissionData c) (Some response).

(** The container gives the form both callbacks. *)
Definition containerProps (formId : string) : Props.t := Props.mk formId true true.

(** A call of the form reaches the handler the container gave it. *)
Definition handleCall (c : Container.t) (call : HostCall) : Container.t :=
  match call with
  | CallSubmissionData data => handleFormSubmit data c
  | CallSubmissionResponse response => handleFormResponse response c
  end.

(** [{...submissionResponse.data, status: 'completed'}] *)
Definition completed (data : ResponseData.t) : ResponseData.t :=
  ResponseData.mk (ResponseData.inlineMessage data) (ResponseData.redirectUrl data)
                  "completed" (ResponseData.correlationId data).

(** The [submissionResponse] property the container gives the sidebar. *)
Definition sidebarResponse (c : Container.t) : SubmissionResult.t :=
  SubmissionResult.mk
    (match Container.submissionResponse c with
     | Some response => SubmissionResult.success response
     | None => false
     end)
    (match Container.submissionResponse c with
     | Some response =>
         match SubmissionResult.data response with
         | Some data => Some (completed data)
         | None => None
         end
     | None => None
     end)
    (match Container.submissionResponse c with
     | Some response => SubmissionResult.error response
     | None => None
     end).

(** ** The configuration: [src/config/hubspot.ts] and [src/app/page.tsx] *)

(** [hubspotConfig]. *)
Module HubspotConfig.
Record t := mk { accessToken : string; portalId : string; formId : string }.
End HubspotConfig.

(** The evaluation of a module: its export, or the message of the [Error]
    it throws. *)
Inductive ModuleResult (A : Type) :=
| Loaded (export : A)
| Failed (message : string).
Arguments Loaded {A} export.
Arguments Failed {A} message.

(** [src/config/hubspot.ts]: each value is [process.env.X || ''], and the
    module throws when one of them is empty. *)
Definition loadHubspotConfig (env : gmap string string) : ModuleResult HubspotConfig.t :=
  let hubspotConfig :=
    HubspotConfig.mk (orFallback (env !! "HUBSPOT_ACCESS_TOKEN") "")
                     (orFallback (env !! "HUBSPOT_PORTAL_ID") "")
                     (orFallback (env !! "HUBSPOT_FORM_ID") "") in
  if String.eqb (HubspotConfig.accessToken hubspotConfig) ""
     || String.eqb (HubspotConfig.portalId hubspotConfig) ""
     || String.eqb (HubspotConfig.formId hubspotConfig) ""
  then Failed "HubSpot configuration is missing required values"
  else Loaded hubspotConfig.

(** [src/app/page.tsx]: the import of the configuration, the check of
    [formId], and the [formId] the page gives the container. *)
Definition loadPage (env : gmap string string) : ModuleResult string :=
  match loadHubspotConfig env with
  | Failed message => Failed message
  | Loaded hubspotConfig =>
      let formId := HubspotConfig.formId hubspotConfig in
      if String.eqb formId ""
      then Failed "HUBSPOT_FORM_ID environment variable is not set"
      else Loaded formId
  end.

(** ** Definitions for the statements on these parts *)

(** The values of a form are well typed for a configuration: a name holds
    a value exactly when the configuration has a field of that name, a
    multiselect field holds an array of values of its options, a select
    field the empty string or the value of one of its options, any other
    field a string. *)
Definition holdsValueOf (field : FormFieldConfig.t) (v : FieldValue) : Prop :=
  match FormFieldConfig.type field, v with
  | multiselect, FStrings l => forall x, x ∈ l -> x ∈ optionValues (optionsOf field)
  | multiselect, FString _ => False
  | select, FString s => s = "" \/ s ∈ optionValues (optionsOf field)
  | _, FString _ => True
  | _, FStrings _ => False
  end.

Definition wellTyped (config : FormConfig.t) (values : gmap string FieldValue) : Prop :=
  forall key,
    match fieldNamed (FormConfig.fields config) key with
    | Some field => exists v, values !! key = Some v /\ holdsValueOf field v
    | None => values !! key = None
    end.

(** The field names of a configuration are distinct. *)
Definition distinctNames (config : FormConfig.t) : Prop :=
  NoDup (map FormFieldConfig.name (FormConfig.fields config)).

(** The characters of the internal name of a HubSpot property: letters,
    digits and the underscore. *)
Definition isWordChar (c : ascii) : bool :=
  isAlpha c || isDigit c || Ascii.eqb c "_".

Fixpoint wordChars (s : string) : bool :=
  match s with
  | EmptyString => true
  | String c s' => isWordChar c && wordChars s'
  end.

(** A name that is a plain key of the objects of the component and of the
    store of the form: it is made of word characters, so that the form
    library reads it as one key and not as a path, and it is not the name
    of a member of [Object.prototype]. *)
Definition plainName (key : string) : Prop :=
  wordChars key = true /\ key ∉ objectPrototypeNames.

Definition plainNames (config : FormConfig.t) : Prop :=
  Forall plainName (map FormFieldConfig.name (FormConfig.fields config)).

(** An interaction that loads a form loads one with distinct field names. *)
Definition loadsDistinctNames (i : Interaction) : Prop :=
  match i with
  | External (FetchSettled (Resolved result)) =>
      match FetchResult.data result with
      | Some data => distinctNames (convertHubspotFormToConfig data)
      | None => True
      end
  | _ => True
  end.

(** An interaction that loads a form loads one whose field names are plain. *)
Definition loadsPlainNames (i : Interaction) : Prop :=
  match i with
  | External (FetchSettled (Resolved result)) =>
      match FetchResult.data result with
      | Some data => plainNames (convertHubspotFormToConfig data)
      | None => True
      end
  | _ => True
  end.

(** The state of a form agrees with its configuration: without one there
    are no values; with one the values are well typed and the default
    values are the initial values. *)
Definition consistent (st : State.t) : Prop :=
  match State.formConfig st with
  | Some formConfig =>
      wellTyped formConfig (State.values st) /\
      State.defaultValues st = initialValues formConfig
  | None => State.values st = ∅ /\ State.defaultValues st = ∅
  end.

(** The external field definitions that the translator makes an email
    field of. *)
Definition becomesEmail (f : HubspotField.t) : Prop :=
  HubspotField.fieldType f = "email" \/
  (~ recognised (HubspotField.fieldType f) /\ mentionsEmail (HubspotField.name f)).

(** The definitions of a form, over all its groups. *)
Definition definitions (hubspotForm : HubspotFormData.t) : list HubspotField.t :=
  flat_map HubspotFieldGroup.fields (HubspotFormData.fieldGroups hubspotForm).

(** The tags [onSubmit] writes to [fieldTypes]. *)
Definition externalTags : list string :=
  ["text"; "email"; "select"; "number"; "multi_line_text"; "multiple_checkboxes"].


(** The value [fetchForm] gives a field of the form. *)
Definition initialValueOf (field : FormFieldConfig.t) : FieldValue :=
  match FormFieldConfig.type field with
  | multiselect => FStrings []
  | _ => FString ""
  end.

(** The argument of [onSubmissionResponse] for an outcome of the server
    action. *)
Definition reportedResponse (settled : Settled SubmissionResult.t) : SubmissionResult.t :=
  match settled with
  | Resolved result => result
  | Rejected reason =>
      SubmissionResult.mk false None
        (Some (thrownMessage reason "Failed to submit form"))
  end.

(** The interactions at which the request of a fetch settles. *)
Definition settlesFetch (i : Interaction) : bool :=
  match i with
  | External (FetchSettled _) => true
  | _ => false
  end.

(** A form with two required fields, an optional multiselect field and an
    optional number field. *)
Definition requiredForm : FormConfig.t :=
  formOf [plainField "firstname" text true;
          plainField "email" email true;
          plainField "colors" multiselect false;
          plainField "age" number false].

(** A fetch, two edits and a submit. *)
Definition sessionOfContactForm : list Interaction :=
  [External (FetchSettled (Resolved (FetchResult.mk true (Some contactForm) None)));
   Edited 1 (Toggle "red" true);
   Edited 0 (TypeText "Ada");
   External (Submitted filledValues)].

(** An environment with the three variables. *)
Definition fullEnv : gmap string string :=
  {[ "HUBSPOT_ACCESS_TOKEN" := "pat-123"; "HUBSPOT_PORTAL_ID" := "42";
     "HUBSPOT_FORM_ID" := "form-1" ]}.

(** * Properties *)

(** ** Strings *)

Lemma prefix_true_iff (sub s : string) :
  String.prefix sub s = true <-> exists post, s = sub +:+ post.
Proof.
  revert s. induction sub as [|c sub IH]; intros s; simpl.
  - split; [intros _; by exists s | by destruct s].
  - destruct s as [|d s]; [split; [done | by intros [post ?]]|].
    simpl. destruct (Ascii.ascii_dec c d) as [->|Hne].
    + rewrite IH. split; intros [post Hpost]; exists post.
      * by rewrite Hpost.
      * by injection Hpost.
    + split; [done | intros [post Hpost]; by injection Hpost].
Qed.

Lemma includes_true_iff (s sub : string) :
  includes s sub = true <-> exists pre post, s = pre +:+ sub +:+ post.
Proof.
  induction s as [|c s IH]; cbn [includes].
  - rewrite orb_false_r, prefix_true_iff. split.
    + intros [post Hpost]. by exists "", post.
    + intros [pre [post Hs]]. destruct pre; [by exists post | done].
  - rewrite orb_true_iff, prefix_true_iff, IH. split.
    + intros [[post Hpost] | [pre [post Hs]]].
      * by exists "", post.
      * exists (String c pre), post. simpl. by rewrite Hs.
    + intros [pre [post Hs]]. destruct pre as [|d pre]; simpl in Hs.
      * left. by exists post.
      * right. exists pre, post. by injection Hs.
Qed.

Lemma toLowerCase_app (a b : string) :
  toLowerCase (a +:+ b) = toLowerCase a +:+ toLowerCase b.
Proof. induction a as [|c a IH]; simpl; [done | by rewrite IH]. Qed.

Lemma toLowerCase_split (s a b : string) :
  toLowerCase s = a +:+ b ->
  exists a' b', s = a' +:+ b' /\ toLowerCase a' = a /\ toLowerCase b' = b.
Proof.
  revert s. induction a as [|c a IH]; intros s Hs; simpl in Hs.
  - by exists "", s.
  - destruct s as [|d s]; simpl in Hs; [done|].
    injection Hs as Hc Hrest.
    destruct (IH s Hrest) as (a' & b' & -> & Ha & Hb).
    exists (String d a'), b'. simpl. by rewrite Hc, Ha.
Qed.

Lemma includes_email_iff (name : string) :
  includes (toLowerCase name) "email" = true <-> mentionsEmail name.
Proof.
  rewrite includes_true_iff. split.
  - intros (pre & post & Hs).
    destruct (toLowerCase_split _ _ _ Hs) as (pre' & rest & -> & _ & Hrest).
    destruct (toLowerCase_split _ _ _ Hrest) as (mid & post' & -> & Hmid & _).
    by exists pre', mid, post'.
  - intros (pre & mid & post & -> & Hmid).
    exists (toLowerCase pre), (toLowerCase post).
    by rewrite !toLowerCase_app, Hmid.
Qed.

(** ** The schema translator *)

Lemma copy_options (o : option (list FieldOption.t)) :
  option_map
    (map (fun opt => FieldOption.mk (FieldOption.label opt) (FieldOption.value opt))) o
  = o.
Proof.
  destruct o as [l|]; simpl; [|done]. f_equal.
  induction l as [|[lbl v] l IH]; simpl; [done | by rewrite IH].
Qed.

Lemma convertField_policy (f : HubspotField.t) :
  TypePolicy f (FormFieldConfig.type (convertField f))
             (FormFieldConfig.options (convertField f)).
Proof.
  unfold convertField. rewrite copy_options.
  destruct (String.eqb_spec (HubspotField.fieldType f) "email") as [He|He];
    [by apply policy_email|].
  destruct (String.eqb_spec (HubspotField.fieldType f) "dropdown") as [Hd|Hd];
    [by apply policy_dropdown|].
  destruct (String.eqb_spec (HubspotField.fieldType f) "multiple_checkboxes") as [Hc|Hc];
    [by apply policy_checkboxes|].
  destruct (String.eqb_spec (HubspotField.fieldType f) "number") as [Hn|Hn];
    [by apply policy_number|].
  destruct (String.eqb_spec (HubspotField.fieldType f) "multi_line_text") as [Hm|Hm];
    [by apply policy_multi_line|].
  assert (~ recognised (HubspotField.fieldType f)) as Hother
    by (unfold recognised; tauto).
  destruct (includes (toLowerCase (HubspotField.name f)) "email") eqn:Hinc; simpl.
  - apply policy_name_email; [done | by apply includes_email_iff].
  - apply policy_default; [done|].
    rewrite <- includes_email_iff. congruence.
Qed.

Lemma TypePolicy_functional (f : HubspotField.t) t1 o1 t2 o2 :
  TypePolicy f t1 o1 -> TypePolicy f t2 o2 -> t1 = t2 /\ o1 = o2.
Proof.
  destruct 1; destruct 1; unfold recognised in *;
    try done; try congruence; tauto.
Qed.

(** The fields the translator copies. *)
Lemma convertField_copies (f : HubspotField.t) :
  FormFieldConfig.name (convertField f) = HubspotField.name f /\
  FormFieldConfig.label (convertField f) = HubspotField.label f /\
  FormFieldConfig.required (convertField f) = Some (HubspotField.required f) /\
  FormFieldConfig.description (convertField f) = HubspotField.description f /\
  FormFieldConfig.placeholder (convertField f) = HubspotField.placeholder f.
Proof.
  unfold convertField.
  repeat match goal with |- context [if ?b then _ else _] => destruct b end; done.
Qed.

Lemma pushGroup_app (acc : list FormFieldConfig.t) (group : HubspotFieldGroup.t) :
  pushGroup acc group = acc ++ map convertField (HubspotFieldGroup.fields group).
Proof.
  unfold pushGroup. generalize (HubspotFieldGroup.fields group) as fs.
  intros fs. revert acc. induction fs as [|f fs IH]; intros acc; simpl.
  - by rewrite app_nil_r.
  - rewrite IH. by rewrite <- app_assoc.
Qed.

Lemma pushGroups_app (groups : list HubspotFieldGroup.t) (acc : list FormFieldConfig.t) :
  fold_left pushGroup groups acc = acc ++ translated groups.
Proof.
  revert acc. induction groups as [|g groups IH]; intros acc; simpl.
  - by rewrite app_nil_r.
  - rewrite IH, pushGroup_app. by rewrite <- app_assoc.
Qed.

Lemma translated_app (g1 g2 : list HubspotFieldGroup.t) :
  translated (g1 ++ g2) = translated g1 ++ translated g2.
Proof. unfold translated. apply flat_map_app. Qed.

Lemma convert_closed_form (hubspotForm : HubspotFormData.t) :
  convertHubspotFormToConfig hubspotForm =
  FormConfig.mk (HubspotFormData.name hubspotForm)
                (translated (HubspotFormData.fieldGroups hubspotForm)).
Proof. unfold convertHubspotFormToConfig. by rewrite pushGroups_app. Qed.

(** The characters that lower-case to the letters of "email". *)
Ltac lower_case_letter c :=
  destruct c as [[] [] [] [] [] [] [] []]; vm_compute;
  (split;
   [ intros H; first [discriminate H | by left | by right]
   | intros [H|H]; first [discriminate H | reflexivity] ]).

Lemma lowerAscii_e (c : ascii) :
  lowerAscii c = "e"%char <-> (c = "e" \/ c = "E")%char.
Proof. lower_case_letter c. Qed.

Lemma lowerAscii_m (c : ascii) :
  lowerAscii c = "m"%char <-> (c = "m" \/ c = "M")%char.
Proof. lower_case_letter c. Qed.

Lemma lowerAscii_a (c : ascii) :
  lowerAscii c = "a"%char <-> (c = "a" \/ c = "A")%char.
Proof. lower_case_letter c. Qed.

Lemma lowerAscii_i (c : ascii) :
  lowerAscii c = "i"%char <-> (c = "i" \/ c = "I")%char.
Proof. lower_case_letter c. Qed.

Lemma lowerAscii_l (c : ascii) :
  lowerAscii c = "l"%char <-> (c = "l" \/ c = "L")%char.
Proof. lower_case_letter c. Qed.

Lemma toLowerCase_email (mid : string) :
  toLowerCase mid = "email" <-> spellsEmail mid.
Proof.
  split.
  - destruct mid as [|c1 [|c2 [|c3 [|c4 [|c5 [|c6 rest]]]]]]; simpl; try discriminate.
    intros [= H1 H2 H3 H4 H5].
    exists c1, c2, c3, c4, c5. split; [done|].
    by rewrite <- lowerAscii_e, <- lowerAscii_m, <- lowerAscii_a,
               <- lowerAscii_i, <- lowerAscii_l.
  - intros (c1 & c2 & c3 & c4 & c5 & -> & H1 & H2 & H3 & H4 & H5). simpl.
    apply lowerAscii_e in H1. apply lowerAscii_m in H2. apply lowerAscii_a in H3.
    apply lowerAscii_i in H4. apply lowerAscii_l in H5.
    by rewrite H1, H2, H3, H4, H5.
Qed.

Lemma mentionsEmail_any_case (name : string) :
  mentionsEmail name <-> containsEmailAnyCase name.
Proof.
  unfold mentionsEmail, containsEmailAnyCase.
  split; intros (pre & mid & post & Hname & Hmid); exists pre, mid, post;
    (split; [done | by apply toLowerCase_email]).
Qed.

(** C4. The fields of the configuration that [convertHubspotFormToConfig]
    returns are the translations of the external field definitions, and
    for every external field definition the translation has the internal
    type and the options the mapping policy gives, and no other: "email"
    gives email; "dropdown" gives select with the options of the
    definition, in their order and with their labels and values;
    "multiple_checkboxes" gives multiselect with the options; "number"
    gives number; "multi_line_text" gives text; any other tag gives email
    when the name contains "email" in any letter case, and text otherwise.
    The translation is a total function: an unrecognised tag raises
    nothing.  The name contains "email" in any letter case when five
    consecutive characters of it are an e or E, an m or M, an a or A, an i
    or I and an l or L: for a tag without a rule of its own the type is
    email exactly then, and text exactly when the name has no such
    characters.  So the field named "email_address" with the tag "text"
    becomes an email field, and so do "Work_EMail" and "EMAIL" with an
    unknown tag, while "e_mail" stays a text field. *)
Theorem convertField_type_policy :
  (forall hubspotForm : HubspotFormData.t,
      FormConfig.fields (convertHubspotFormToConfig hubspotForm)
      = flat_map (fun group => map convertField (HubspotFieldGroup.fields group))
                 (HubspotFormData.fieldGroups hubspotForm)) /\
  (forall (f : HubspotField.t) (t : FieldType) (o : option (list FieldOption.t)),
      TypePolicy f t o <->
      FormFieldConfig.type (convertField f) = t /\
      FormFieldConfig.options (convertField f) = o) /\
  (forall name : string, mentionsEmail name <-> containsEmailAnyCase name) /\
  (forall f : HubspotField.t,
      ~ recognised (HubspotField.fieldType f) ->
      (FormFieldConfig.type (convertField f) = email
       <-> containsEmailAnyCase (HubspotField.name f)) /\
      (FormFieldConfig.type (convertField f) = text
       <-> ~ containsEmailAnyCase (HubspotField.name f)) /\
      FormFieldConfig.options (convertField f) = None) /\
  FormFieldConfig.type
    (convertField (HubspotField.mk "email_address" "Email" "text" false None None None))
  = email /\
  FormFieldConfig.type
    (convertField (HubspotField.mk "Work_EMail" "Work" "single_line_text" false
                                   None None None))
  = email /\
  FormFieldConfig.type
    (convertField (HubspotField.mk "EMAIL" "Mail" "phone" true None None None))
  = email /\
  FormFieldConfig.type
    (convertField (HubspotField.mk "e_mail" "Mail" "text" false None None None))
  = text.
Proof.
  split; [|split; [|split; [|split]]].
  - intros form. by rewrite convert_closed_form.
  - intros f t o. split.
    + intros H. by apply (TypePolicy_functional f _ _ _ _ (convertField_policy f) H).
    + intros [<- <-]. apply convertField_policy.
  - apply mentionsEmail_any_case.
  - intros f Hother. pose proof (convertField_policy f) as Hpolicy.
    rewrite <- mentionsEmail_any_case.
    inversion Hpolicy as [Hty|Hty|Hty|Hty|Hty|_ Hname Ht Ho|_ Hname Ht Ho];
      try (exfalso; apply Hother; unfold recognised; tauto).
    + repeat split; try done; by intros _.
    + repeat split; try done; by intros _.
  - repeat split; reflexivity.
Qed.

(** C9. [convertHubspotFormToConfig] is a function of its input alone: its
    result is the name of the form with the translations of the fields,
    group after group and field after field inside a group, so that any
    number of translations of one form give the same configuration; the
    field at position [length a] of a group preceded by the groups [before]
    lands behind all the fields of [before] and the [length a] fields of
    its own group. *)
Theorem convertHubspotFormToConfig_pure_ordered :
  (forall hubspotForm : HubspotFormData.t,
      convertHubspotFormToConfig hubspotForm =
      FormConfig.mk (HubspotFormData.name hubspotForm)
                    (translated (HubspotFormData.fieldGroups hubspotForm))) /\
  (forall (n : nat) (hubspotForm : HubspotFormData.t),
      translateTimes n hubspotForm =
      replicate n (convertHubspotFormToConfig hubspotForm)) /\
  (forall (nm : string) (before after : list HubspotFieldGroup.t)
          (a b : list HubspotField.t) (f : HubspotField.t),
      FormConfig.fields
        (convertHubspotFormToConfig
           (HubspotFormData.mk nm
              (before ++ HubspotFieldGroup.mk (a ++ f :: b) :: after)))
      !! (length (flat_map HubspotFieldGroup.fields before) + length a)%nat
      = Some (convertField f)).
Proof.
  split; [exact convert_closed_form|]. split.
  - intros n form. induction n as [|n IH]; simpl; [done | by rewrite IH].
  - intros nm before after a b f. rewrite convert_closed_form. simpl.
    rewrite translated_app. simpl. rewrite map_app. simpl.
    assert (length (translated before)
            = length (flat_map HubspotFieldGroup.fields before)) as Hlen.
    { unfold translated. induction before as [|g before IH]; simpl; [done|].
      by rewrite !length_app, length_map, IH. }
    rewrite <- Hlen.
    rewrite lookup_app_r by lia.
    replace (length (translated before) + length a - length (translated before))%nat
      with (length a) by lia.
    rewrite <- app_assoc.
    rewrite lookup_app_r by (rewrite length_map; lia).
    rewrite length_map, Nat.sub_diag. done.
Qed.

Lemma convertField_not_multi_line (f : HubspotField.t) :
  FormFieldConfig.type (convertField f) <> multi_line_text.
Proof.
  unfold convertField.
  repeat match goal with |- context [if ?b then _ else _] => destruct b end; done.
Qed.

Lemma elem_of_translated (c : FormFieldConfig.t) (groups : list HubspotFieldGroup.t) :
  c ∈ translated groups ->
  exists f, c = convertField f.
Proof.
  rewrite list_elem_of_In. unfold translated. rewrite in_flat_map.
  intros (g & _ & Hin). apply in_map_iff in Hin as (f & <- & _). by exists f.
Qed.

(** C10. No field of a configuration made by [convertHubspotFormToConfig]
    has the internal type [multi_line_text] (the external tag
    "multi_line_text" gives [text]); so for such a field the [switch] of
    [generateZodSchema] never takes the [multi_line_text] case: its base
    schema is never the always-required [z.string().min(1, "Please enter
    your message.")]. *)
Theorem translated_never_multi_line_text :
  forall (rt : Runtime) (hubspotForm : HubspotFormData.t) (field : FormFieldConfig.t),
    field ∈ FormConfig.fields (convertHubspotFormToConfig hubspotForm) ->
    FormFieldConfig.type field <> multi_line_text /\
    baseSchema rt field <> zmin z_string 1 "Please enter your message.".
Proof.
  intros rt form field Hin.
  rewrite convert_closed_form in Hin. simpl in Hin.
  apply elem_of_translated in Hin as [f ->].
  pose proof (convertField_not_multi_line f) as Hty.
  split; [done|].
  unfold baseSchema.
  destruct (FormFieldConfig.type (convertField f)); simpl; try done.
Qed.

Lemma translated_never_multi_line_text_witness :
  FormFieldConfig.type (convertField
     (HubspotField.mk "message" "Message" "multi_line_text" false None None None))
  <> multi_line_text /\
  baseSchema exampleRuntime (convertField
     (HubspotField.mk "message" "Message" "multi_line_text" false None None None))
  <> zmin z_string 1 "Please enter your message.".
Proof.
  apply (translated_never_multi_line_text exampleRuntime
           (HubspotFormData.mk "Feedback"
              [HubspotFieldGroup.mk
                 [HubspotField.mk "message" "Message" "multi_line_text" false
                                  None None None]])).
  simpl. left.
Defined.

(** ** The validation schema builder *)

Lemma fieldNamed_name fields key field :
  fieldNamed fields key = Some field -> FormFieldConfig.name field = key.
Proof.
  induction fields as [|f rest IH]; simpl; [done|].
  destruct (fieldNamed rest key) as [later|]; [intros [= <-]; by apply IH|].
  destruct (String.eqb_spec (FormFieldConfig.name f) key); [by intros [= <-] | done].
Qed.

Lemma fieldNamed_elem_of fields key field :
  fieldNamed fields key = Some field -> field ∈ fields.
Proof.
  induction fields as [|f rest IH]; simpl; [done|].
  destruct (fieldNamed rest key) as [later|].
  - intros [= <-]. right. by apply IH.
  - destruct (String.eqb (FormFieldConfig.name f) key); [intros [= <-]; left | done].
Qed.

Lemma fieldNamed_None fields key :
  fieldNamed fields key = None <->
  forall field, field ∈ fields -> FormFieldConfig.name field <> key.
Proof.
  induction fields as [|f rest IH]; simpl.
  - split; [intros _ field Hin; inversion Hin | done].
  - destruct (fieldNamed rest key) as [later|] eqn:Hrest.
    + split; [done|]. intros Hall. exfalso.
      apply (Hall later); [right; by eapply fieldNamed_elem_of|].
      by eapply fieldNamed_name.
    + destruct (String.eqb_spec (FormFieldConfig.name f) key) as [Heq|Hne].
      * split; [done|]. intros Hall. exfalso. apply (Hall f); [left | done].
      * split; [|done]. intros _ field Hin.
        apply elem_of_cons in Hin as [-> | Hin]; [done|].
        destruct IH as [IH _]. by apply IH.
Qed.

(** With distinct names a field is the one held under its name. *)
Lemma fieldNamed_NoDup fields field :
  NoDup (map FormFieldConfig.name fields) ->
  field ∈ fields ->
  fieldNamed fields (FormFieldConfig.name field) = Some field.
Proof.
  induction fields as [|f rest IH]; simpl; intros Hnd Hin; [inversion Hin|].
  apply NoDup_cons in Hnd as [Hfresh Hnd].
  apply elem_of_cons in Hin as [-> | Hin].
  - assert (fieldNamed rest (FormFieldConfig.name f) = None) as ->.
    { apply fieldNamed_None. intros g Hg Heq. apply Hfresh.
      rewrite <- Heq. by apply list_elem_of_fmap_2. }
    by rewrite String.eqb_refl.
  - by rewrite IH.
Qed.

Section ValidatorFacts.
Variable rt : Runtime.

Lemma addField_Throw (fs : list FormFieldConfig.t) (e : JsError) :
  fold_left (addField rt) fs (Throw e) = Throw e.
Proof. induction fs as [|f fs IH]; simpl; [done | exact IH]. Qed.

Lemma addField_Normal (acc : gmap string ZodType) (f : FormFieldConfig.t) :
  addField rt (Normal acc) f =
  match fieldSchemaOf rt f with
  | Normal s => Normal (<[FormFieldConfig.name f := s]> acc)
  | Throw e => Throw e
  end.
Proof. unfold addField. simpl. by destruct (fieldSchemaOf rt f). Qed.

(** The record the loop leaves: under each name, the schema of the field
    held under it, or what was there before the loop. *)
Lemma addField_fold_lookup (fs : list FormFieldConfig.t)
      (acc sch : gmap string ZodType) (key : string) :
  fold_left (addField rt) fs (Normal acc) = Normal sch ->
  match fieldNamed fs key with
  | Some field => exists s, fieldSchemaOf rt field = Normal s /\ sch !! key = Some s
  | None => sch !! key = acc !! key
  end.
Proof.
  revert acc. induction fs as [|f fs IH]; intros acc; cbn [fold_left fieldNamed].
  - by intros [= ->].
  - rewrite addField_Normal.
    destruct (fieldSchemaOf rt f) as [s|e] eqn:Hs;
      [|by rewrite addField_Throw].
    intros Hfold. specialize (IH _ Hfold).
    destruct (fieldNamed fs key) as [later|]; [done|].
    destruct (String.eqb_spec (FormFieldConfig.name f) key) as [Heq|Hne].
    + exists s. split; [done|]. rewrite IH, <- Heq. apply lookup_insert_eq.
    + rewrite IH. by apply lookup_insert_ne.
Qed.

Lemma addField_fold_Normal (fs : list FormFieldConfig.t)
      (acc sch : gmap string ZodType) (field : FormFieldConfig.t) :
  fold_left (addField rt) fs (Normal acc) = Normal sch ->
  field ∈ fs ->
  exists s, fieldSchemaOf rt field = Normal s.
Proof.
  revert acc. induction fs as [|f fs IH]; intros acc; cbn [fold_left]; [by inversion 2|].
  rewrite addField_Normal.
  destruct (fieldSchemaOf rt f) as [s|e] eqn:Hs;
    [|by rewrite addField_Throw].
  intros Hfold Hin. apply elem_of_cons in Hin as [-> | Hin]; [by exists s|].
  by eapply IH.
Qed.

(** The validator of the object under a name. *)
Lemma generateZodSchema_lookup (config : FormConfig.t) (o : ZodObject)
      (key : string) (field : FormFieldConfig.t) :
  generateZodSchema rt config = Normal o ->
  fieldNamed (FormConfig.fields config) key = Some field ->
  exists s, fieldSchemaOf rt field = Normal s /\ shape o !! key = Some s.
Proof.
  unfold generateZodSchema. intros Hgen Hnamed.
  destruct (fold_left (addField rt) (FormConfig.fields config) (Normal ∅))
    as [sch|e] eqn:Hfold; simpl in Hgen; [|done].
  injection Hgen as <-. simpl.
  pose proof (addField_fold_lookup _ _ _ key Hfold) as H.
  by rewrite Hnamed in H.
Qed.

Lemma fieldSchemaOf_Throw (field : FormFieldConfig.t) :
  builderThrows field = true ->
  exists message, fieldSchemaOf rt field = Throw (TypeError message).
Proof.
  unfold builderThrows, fieldSchemaOf, baseSchema.
  destruct (FormFieldConfig.type field), (isRequired field); simpl; try done;
    intros _; eauto.
Qed.

Lemma fieldSchemaOf_Normal (field : FormFieldConfig.t) :
  builderThrows field = false ->
  exists s, fieldSchemaOf rt field = Normal s.
Proof.
  unfold builderThrows, fieldSchemaOf, baseSchema.
  destruct (FormFieldConfig.type field), (isRequired field); simpl; try done;
    intros _; eauto.
Qed.

Lemma addField_fold_Throw (fs : list FormFieldConfig.t)
      (acc : gmap string ZodType) (field : FormFieldConfig.t) :
  field ∈ fs -> builderThrows field = true ->
  exists message, fold_left (addField rt) fs (Normal acc) = Throw (TypeError message).
Proof.
  intros Hin Hthrows.
  destruct (fold_left (addField rt) fs (Normal acc)) as [sch|[message]] eqn:Hfold;
    [|by exists message].
  destruct (addField_fold_Normal _ _ _ _ Hfold Hin) as [s Hs].
  destruct (fieldSchemaOf_Throw field Hthrows) as [message Hm]. congruence.
Qed.

Lemma addField_fold_returns (fs : list FormFieldConfig.t) (acc : gmap string ZodType) :
  (forall field, field ∈ fs -> builderThrows field = false) ->
  exists sch, fold_left (addField rt) fs (Normal acc) = Normal sch.
Proof.
  revert acc. induction fs as [|f fs IH]; intros acc Hall; cbn [fold_left]; [by exists acc|].
  rewrite addField_Normal.
  destruct (fieldSchemaOf_Normal f) as [s ->]; [apply Hall; left|].
  apply IH. intros g Hg. apply Hall. by right.
Qed.

End ValidatorFacts.

(** ** C3: the builder throws *)

(** C3. For every form configuration with a field of type email that is
    not required, or a field of type number that is required,
    [generateZodSchema] returns no validator: it throws a [TypeError], from
    the call of [.email] on the [ZodOptional] or of [.min] on the
    [ZodEffects]. *)
Theorem generateZodSchema_throws :
  forall (rt : Runtime) (config : FormConfig.t) (field : FormFieldConfig.t),
    field ∈ FormConfig.fields config ->
    (FormFieldConfig.type field = email /\ isRequired field = false) \/
    (FormFieldConfig.type field = number /\ isRequired field = true) ->
    exists message, generateZodSchema rt config = Throw (TypeError message).
Proof.
  intros rt config field Hin Hbad.
  assert (builderThrows field = true) as Hthrows.
  { unfold builderThrows. destruct Hbad as [[-> ->] | [-> ->]]; done. }
  destruct (addField_fold_Throw rt _ ∅ _ Hin Hthrows) as [message Hfold].
  exists message. unfold generateZodSchema. by rewrite Hfold.
Qed.

Lemma generateZodSchema_throws_witness :
  (exists message,
      generateZodSchema exampleRuntime (formOf [plainField "email" email false])
      = Throw (TypeError message)) /\
  (exists message,
      generateZodSchema exampleRuntime (formOf [plainField "age" number true])
      = Throw (TypeError message)).
Proof.
  split.
  - apply (generateZodSchema_throws exampleRuntime _ (plainField "email" email false)).
    + simpl. left.
    + left. split; reflexivity.
  - apply (generateZodSchema_throws exampleRuntime _ (plainField "age" number true)).
    + simpl. left.
    + right. split; reflexivity.
Defined.

(** The method that is missing, on the two kinds of field. *)
Lemma fieldSchemaOf_optional_email (rt : Runtime) (field : FormFieldConfig.t) :
  FormFieldConfig.type field = email -> isRequired field = false ->
  fieldSchemaOf rt field = Throw (TypeError "fieldSchema.email is not a function").
Proof. intros Hty Hreq. unfold fieldSchemaOf, baseSchema. by rewrite Hty, Hreq. Qed.

Lemma fieldSchemaOf_required_number (rt : Runtime) (field : FormFieldConfig.t) :
  FormFieldConfig.type field = number -> isRequired field = true ->
  fieldSchemaOf rt field = Throw (TypeError "fieldSchema.min is not a function").
Proof. intros Hty Hreq. unfold fieldSchemaOf, baseSchema. by rewrite Hty, Hreq. Qed.

(** The builder returns a validator exactly when no field is of these two
    kinds. *)
Lemma generateZodSchema_returns_iff (rt : Runtime) (config : FormConfig.t) :
  (exists o, generateZodSchema rt config = Normal o) <->
  forall field, field ∈ FormConfig.fields config -> builderThrows field = false.
Proof.
  unfold generateZodSchema. split.
  - intros [o Ho] field Hin.
    destruct (builderThrows field) eqn:Hthrows; [|done].
    destruct (addField_fold_Throw rt _ ∅ _ Hin Hthrows) as [message Hfold].
    by rewrite Hfold in Ho.
  - intros Hall. destruct (addField_fold_returns rt _ ∅ Hall) as [sch ->].
    by exists (z_object sch).
Qed.

(** ** Parsing facts *)

Section ParseFacts.
Variable rt : Runtime.





(** [safeParse] succeeds when the validator of every key accepts the
    value of the key. *)
Lemma safeParse_true (o : ZodObject) (data : gmap string FieldValue) :
  safeParse rt o data = true <->
  forall key s, shape o !! key = Some s ->
                fieldAccepts rt o key (readField data key) = true.
Proof.
  unfold safeParse, fieldAccepts. rewrite bool_decide_eq_true. split.
  - intros Hall key s Hs. rewrite Hs. by apply (Hall key s).
  - intros Hall key s Hs. specialize (Hall key s Hs). by rewrite Hs in Hall.
Qed.

Lemma nonempty_length (v : string) : v <> "" -> (String.length v <? 1)%nat = false.
Proof. by destruct v. Qed.

Lemma nonempty_truthy (v : string) : v <> "" -> truthy (VString v) = true.
Proof. by destruct v. Qed.

End ParseFacts.

(** What [fieldSchemaOf] returns for a field whose type and required flag
    are known: unfold, and decide the test on the name. *)
Ltac field_schema Hs Hty Hreq :=
  unfold fieldSchemaOf, baseSchema in Hs; rewrite Hty, Hreq in Hs;
  cbn [mbind Completion_bind mret Completion_ret zmin zemail z_string z_array
       optional transform isEmailType isNumberType] in Hs.

(** ** C1: a required multiselect field *)



Lemma validate_Normal rt config o key v :
  generateZodSchema rt config = Normal o ->
  validate rt config key v = Normal (fieldAccepts rt o key v).
Proof. unfold validate. by intros ->. Qed.


(** ** C2: fields that are not required *)


Lemma optionalForm_returns :
  exists o, generateZodSchema exampleRuntime optionalForm = Normal o.
Proof.
  apply generateZodSchema_returns_iff. intros field Hin.
  repeat (apply elem_of_cons in Hin as [-> | Hin]; [reflexivity|]).
  inversion Hin.
Defined.



(** The refinement of a number field runs on [undefined] too, and
    [Number(undefined)] is [NaN]. *)
Lemma optional_number_rejects_absent (rt : Runtime) (config : FormConfig.t)
      (o : ZodObject) (key : string) (field : FormFieldConfig.t) :
  generateZodSchema rt config = Normal o ->
  fieldNamed (FormConfig.fields config) key = Some field ->
  FormFieldConfig.type field = number ->
  fieldAccepts rt o key VUndefined = false.
Proof.
  intros Hgen Hnamed Hty.
  destruct (generateZodSchema_lookup rt _ _ _ _ Hgen Hnamed) as (s & Hs & Hlook).
  unfold fieldAccepts. rewrite Hlook.
  destruct (isRequired field) eqn:Hreq;
    field_schema Hs Hty Hreq; [discriminate Hs|].
  destruct (String.eqb (FormFieldConfig.name field) "website");
    injection Hs as <-; reflexivity.
Qed.

(** ** C8: the field named "website" *)

Lemma websiteCheck_falsy (rt : Runtime) :
  websiteCheck rt VUndefined = true /\ websiteCheck rt (VString "") = true.
Proof. split; reflexivity. Qed.

Lemma websiteCheck_string (rt : Runtime) (v : string) :
  v <> "" -> websiteCheck rt (VString v) = URL_parses rt v.
Proof. intros Hv. unfold websiteCheck. by rewrite nonempty_truthy. Qed.

(** C8, as the code has it.  For every form configuration for which
    [generateZodSchema] returns a validator, and the field it holds under
    the name "website": whatever the declared type, the schema of the field
    ends with the URL refinement, which passes on a missing value and on
    the empty string; the validator rejects every non-empty string that
    does not parse as a URL (such as "not a url") when the type is not
    number, and when the type is number unless the string reads as the
    number zero; it accepts every non-empty string that parses as a URL
    (such as "https://example.com") when the type is text, select or
    multi_line_text. *)
Theorem website_field_url_check :
  forall (rt : Runtime) (config : FormConfig.t) (o : ZodObject)
         (field : FormFieldConfig.t),
    generateZodSchema rt config = Normal o ->
    fieldNamed (FormConfig.fields config) "website" = Some field ->
    (exists s, shape o !! "website"
               = Some (refine s (websiteCheck rt) "Please enter a valid URL.")) /\
    websiteCheck rt VUndefined = true /\
    websiteCheck rt (VString "") = true /\
    (forall v, v <> "" -> URL_parses rt v = false ->
               FormFieldConfig.type field <> number ->
               fieldAccepts rt o "website" (VString v) = false) /\
    (forall v, v <> "" -> URL_parses rt v = false ->
               FormFieldConfig.type field = number ->
               PrimFloat.eqb (StringToNumber rt v) PrimFloat.zero = false ->
               fieldAccepts rt o "website" (VString v) = false) /\
    (forall v, v <> "" -> URL_parses rt v = true ->
               FormFieldConfig.type field = text \/
               FormFieldConfig.type field = select \/
               FormFieldConfig.type field = multi_line_text ->
               fieldAccepts rt o "website" (VString v) = true).
Proof.
  intros rt config o field Hgen Hnamed.
  destruct (generateZodSchema_lookup rt _ _ _ _ Hgen Hnamed) as (s & Hs & Hlook).
  pose proof (fieldNamed_name _ _ _ Hnamed) as Hname.
  unfold fieldAccepts. rewrite Hlook.
  destruct (websiteCheck_falsy rt) as [Hundef Hempty].
  destruct (FormFieldConfig.type field) eqn:Hty, (isRequired field) eqn:Hreq;
    field_schema Hs Hty Hreq; try discriminate Hs;
    rewrite Hname in Hs; cbn [String.eqb Ascii.eqb Bool.eqb] in Hs;
    injection Hs as <-.
  all: split; [eauto|]; split; [done|]; split; [done|].
  all: repeat split; try done; try (intros v Hv Hurl [?|[?|?]]; done).
  all: intros v Hv Hurl Hextra; try congruence; try intros Hnonzero;
    cbn [parse refine optional transform z_string z_array flat_map runCheck app];
    rewrite ?(nonempty_length v Hv);
    try match goal with
        | |- context [emailRegex_test ?r ?x] => destruct (emailRegex_test r x)
        end;
    cbn [withIssues app];
    rewrite ?(websiteCheck_string rt v Hv), ?Hurl; try done.
  unfold numberCheck, numberTransform, Number, isNaN.
  destruct (PrimFloat.is_nan (StringToNumber rt v)) eqn:Hnan; cbn [negb isValid].
  - by rewrite Hnan.
  - rewrite Hnan. cbn [negb]. unfold websiteCheck, truthy.
    by rewrite Hnonzero, Hnan.
Qed.

Lemma websiteForm_returns :
  exists o, generateZodSchema exampleRuntime websiteForm = Normal o.
Proof.
  apply generateZodSchema_returns_iff. intros field Hin.
  apply list_elem_of_singleton in Hin as ->. reflexivity.
Defined.

Lemma website_field_url_check_witness :
  exists o,
    generateZodSchema exampleRuntime websiteForm = Normal o /\
    fieldAccepts exampleRuntime o "website" (VString "not a url") = false /\
    fieldAccepts exampleRuntime o "website" (VString "https://example.com") = true.
Proof.
  destruct websiteForm_returns as [o Ho]. exists o. split; [exact Ho|].
  destruct (website_field_url_check exampleRuntime websiteForm o
              (plainField "website" text false) Ho eq_refl)
    as (_ & _ & _ & Hreject & _ & Haccept).
  split.
  - apply Hreject; [discriminate | reflexivity | discriminate].
  - apply Haccept; [discriminate | reflexivity | by left].
Defined.

(** C8 as stated fails on two forms.  On an email field named "website"
    the validator rejects "https://example.com", which parses as a URL and
    is no email address; on a number field named "website" it accepts "0",
    which is not empty and parses as no URL. *)
Lemma website_field_depends_on_type :
  (URL_parses exampleRuntime "https://example.com" = true /\
   validate exampleRuntime (formOf [plainField "website" email true])
            "website" (VString "https://example.com") = Normal false) /\
  (URL_parses exampleRuntime "0" = false /\
   validate exampleRuntime (formOf [plainField "website" number false])
            "website" (VString "0") = Normal true).
Proof. repeat split; reflexivity. Qed.

(** ** C5: the submission payload *)

Lemma collectField_step (values hubspotFields : gmap string FieldValue)
      (fieldTypes : gmap string string) (field : FormFieldConfig.t) :
  collectField values (hubspotFields, fieldTypes) field =
  match values !! FormFieldConfig.name field with
  | Some value =>
      (<[FormFieldConfig.name field := (payloadEntry field value).1]> hubspotFields,
       <[FormFieldConfig.name field := (payloadEntry field value).2]> fieldTypes)
  | None => (hubspotFields, fieldTypes)
  end.
Proof.
  unfold collectField, payloadEntry.
  destruct (values !! FormFieldConfig.name field); [|done].
  by destruct (FormFieldConfig.type field).
Qed.

Lemma collectField_fold_lookup (values : gmap string FieldValue)
      (fs : list FormFieldConfig.t) (fa : gmap string FieldValue)
      (ta : gmap string string) (key : string) :
  let collected := fold_left (collectField values) fs (fa, ta) in
  match fieldNamed fs key, values !! key with
  | Some field, Some value =>
      collected.1 !! key = Some (payloadEntry field value).1 /\
      collected.2 !! key = Some (payloadEntry field value).2
  | _, _ =>
      collected.1 !! key = fa !! key /\ collected.2 !! key = ta !! key
  end.
Proof.
  revert fa ta. induction fs as [|f fs IH]; intros fa ta; cbn [fold_left fieldNamed].
  - by destruct (values !! key).
  - rewrite collectField_step. cbn zeta in IH.
    destruct (String.eqb_spec (FormFieldConfig.name f) key) as [Heq|Hne].
    + rewrite Heq.
      destruct (values !! key) as [value|] eqn:Hvalue.
      * specialize (IH (<[key := (payloadEntry f value).1]> fa)
                       (<[key := (payloadEntry f value).2]> ta)).
        destruct (fieldNamed fs key) as [later|]; [exact IH|].
        by rewrite !lookup_insert_eq in IH.
      * specialize (IH fa ta).
        by destruct (fieldNamed fs key).
    + destruct (values !! FormFieldConfig.name f) as [value|].
      * specialize (IH (<[FormFieldConfig.name f := (payloadEntry f value).1]> fa)
                       (<[FormFieldConfig.name f := (payloadEntry f value).2]> ta)).
        rewrite !lookup_insert_ne in IH by done.
        destruct (fieldNamed fs key) as [later|]; [exact IH|].
        by destruct (values !! key).
      * specialize (IH fa ta).
        destruct (fieldNamed fs key) as [later|]; [exact IH|].
        by destruct (values !! key).
Qed.

Lemma fieldNamed_is_Some (fs : list FormFieldConfig.t) (key : string) :
  is_Some (fieldNamed fs key) <->
  exists field, field ∈ fs /\ FormFieldConfig.name field = key.
Proof.
  split.
  - intros [field Hfield]. exists field. split.
    + by eapply fieldNamed_elem_of.
    + by eapply fieldNamed_name.
  - intros (field & Hin & Hname).
    destruct (fieldNamed fs key) as [later|] eqn:Hnamed; [by exists later|].
    exfalso. by apply (proj1 (fieldNamed_None fs key) Hnamed field).
Qed.


(** With distinct field names, field by field. *)
Lemma submission_payload_of_field (props : Props.t) (page : Page.t)
      (config : FormConfig.t) (values : gmap string FieldValue)
      (field : FormFieldConfig.t) (value : FieldValue) :
  NoDup (map FormFieldConfig.name (FormConfig.fields config)) ->
  field ∈ FormConfig.fields config ->
  values !! FormFieldConfig.name field = Some value ->
  let payload := buildPayload props page (Some config) values in
  SubmissionPayload.fields payload !! FormFieldConfig.name field
  = Some (payloadEntry field value).1 /\
  SubmissionPayload.fieldTypes payload !! FormFieldConfig.name field
  = Some (payloadEntry field value).2.
Proof.
  intros Hnd Hin Hvalue payload.
  pose proof (collectField_fold_lookup values (FormConfig.fields config) ∅ ∅
                (FormFieldConfig.name field)) as H.
  cbn zeta in H. rewrite (fieldNamed_NoDup _ _ Hnd Hin), Hvalue in H.
  unfold payload, buildPayload, collectFields.
  by destruct (fold_left (collectField values) (FormConfig.fields config) (∅, ∅)).
Qed.


(** ** C6: a submit that throws *)

(** C6, as the code has it.  Whenever [submitHubspotForm] throws a value
    that is not an [Error] instance, [onSubmit] leaves "Failed to submit
    form" as the submit error, which the form shows as its error banner,
    and calls [onSubmissionResponse], when the host gave it, once and last
    with [{success: false, error: "Failed to submit form"}]; whenever it
    throws an [Error] instance with a non-empty message, the banner and
    the [error] of the response are that message.  In both cases the form
    is no longer submitting and shows no success banner. *)
Theorem onSubmit_thrown :
  forall (submitHubspotForm : SubmissionPayload.t -> Settled SubmissionResult.t)
         (props : Props.t) (page : Page.t) (values : gmap string FieldValue)
         (st : State.t) (reason : Thrown) (message : string),
    submitHubspotForm (buildPayload props page (State.formConfig st) values)
    = Rejected reason ->
    (reason = NotAnError /\ message = "Failed to submit form") \/
    (reason = ErrorInstance message /\ message <> "") ->
    let '(st', calls) := onSubmit submitHubspotForm props page values st in
    State.submitError st' = Some message /\
    shown (State.submitError st') = Some message /\
    State.isSubmitting st' = false /\
    State.submitSuccess st' = false /\
    (forall formConfig,
        State.loading st = false -> shown (State.error st) = None ->
        State.formConfig st = Some formConfig ->
        render st' = FormView (FormConfig.name formConfig) false (Some message) false) /\
    (Props.onSubmissionResponse props = true ->
     exists before,
       calls = before ++ [CallSubmissionResponse
                            (SubmissionResult.mk false None (Some message))] /\
       forall r, CallSubmissionResponse r ∉ before).
Proof.
  intros submit props page values st reason message Hthrown Hreason.
  unfold onSubmit. cbn [State.formConfig State.setIsSubmitting State.setSubmitError
                        State.setSubmitSuccess].
  rewrite Hthrown.
  assert (thrownMessage reason "Failed to submit form" = message) as ->.
  { by destruct Hreason as [[-> ->] | [-> _]]. }
  assert (shown (Some message) = Some message) as Hshown.
  { destruct Hreason as [[_ ->] | [_ Hne]]; [done|].
    simpl. by destruct (String.eqb_spec message ""). }
  cbn. repeat split; try done.
  - intros formConfig Hloading Herror HformConfig. unfold render.
    cbn [State.loading State.error State.formConfig State.submitError
         State.submitSuccess State.isSubmitting State.setIsSubmitting
         State.setSubmitError State.setSubmitSuccess].
    by rewrite Hloading, Herror, HformConfig, Hshown.
  - intros Hcb. unfold notifyResponse. rewrite Hcb.
    eexists. split; [reflexivity|].
    intros r Hr. destruct (Props.onSubmissionData props); [|by inversion Hr].
    apply list_elem_of_singleton in Hr. discriminate Hr.
Qed.

Lemma onSubmit_thrown_witness :
  let '(st', calls) :=
    onSubmit (fun _ => Rejected NotAnError) hostProps hostPage filledValues readyState in
  State.submitError st' = Some "Failed to submit form" /\
  shown (State.submitError st') = Some "Failed to submit form" /\
  State.isSubmitting st' = false /\
  State.submitSuccess st' = false /\
  (forall formConfig,
      State.loading readyState = false -> shown (State.error readyState) = None ->
      State.formConfig readyState = Some formConfig ->
      render st' = FormView (FormConfig.name formConfig) false
                            (Some "Failed to submit form") false) /\
  (Props.onSubmissionResponse hostProps = true ->
   exists before,
     calls = before ++ [CallSubmissionResponse
                          (SubmissionResult.mk false None (Some "Failed to submit form"))] /\
     forall r, CallSubmissionResponse r ∉ before).
Proof.
  apply (onSubmit_thrown (fun _ => Rejected NotAnError) hostProps hostPage
                         filledValues readyState NotAnError "Failed to submit form").
  - reflexivity.
  - left. split; reflexivity.
Defined.

(** C6 as stated fails when the thrown value is an [Error] with no message
    ([new Error()], whose message is the empty string): the submit error
    and the [error] of the response are the empty string, and the form
    shows no error banner. *)
Lemma onSubmit_thrown_empty_message :
  let '(st', calls) :=
    onSubmit (fun _ => Rejected (ErrorInstance "")) hostProps hostPage
             filledValues readyState in
  State.submitError st' = Some "" /\
  render st' = FormView "Contact" false None false /\
  last calls = Some (CallSubmissionResponse (SubmissionResult.mk false None (Some ""))).
Proof. repeat split; reflexivity. Qed.

(** ** C7: a fetch that fails *)

Lemma render_ErrorView (st : State.t) (message : string) :
  render st = ErrorView message <->
  State.loading st = false /\ shown (State.error st) = Some message.
Proof.
  unfold render. destruct (State.loading st).
  - split; [done | by intros [? _]].
  - destruct (shown (State.error st)) as [m|].
    + split; [by intros [= ->] | by intros [_ [= ->]]].
    + split; [by destruct (State.formConfig st) | by intros [_ ?]].
Qed.

Lemma shown_nonempty (message : string) :
  message <> "" -> shown (Some message) = Some message.
Proof. intros Hne. simpl. by destruct (String.eqb_spec message ""). Qed.

Lemma orFallback_nonempty (e : option string) (fallback : string) :
  fallback <> "" -> orFallback e fallback <> "".
Proof.
  intros Hne. unfold orFallback. destruct e as [s|]; [|done].
  by destruct (String.eqb_spec s "").
Qed.

Lemma fetchForm_failed (r : FetchResult.t) (st : State.t) :
  FetchResult.success r = false ->
  fetchForm (Resolved r) st
  = State.setLoading false
      (State.setError (orFallback (FetchResult.error r) "Failed to fetch form") st).
Proof. intros Hfail. unfold fetchForm. by rewrite Hfail. Qed.

Lemma onSubmit_keeps_fetch_state
      (submitHubspotForm : SubmissionPayload.t -> Settled SubmissionResult.t)
      (props : Props.t) (page : Page.t) (values : gmap string FieldValue)
      (st : State.t) :
  State.loading (onSubmit submitHubspotForm props page values st).1 = State.loading st /\
  State.error (onSubmit submitHubspotForm props page values st).1 = State.error st.
Proof.
  unfold onSubmit.
  destruct (submitHubspotForm _) as [result|reason]; [|done].
  by destruct (SubmissionResult.success result).
Qed.

Lemma onSubmit_keeps_formConfig
      (submitHubspotForm : SubmissionPayload.t -> Settled SubmissionResult.t)
      (props : Props.t) (page : Page.t) (values : gmap string FieldValue)
      (st : State.t) :
  State.formConfig (onSubmit submitHubspotForm props page values st).1
  = State.formConfig st.
Proof.
  unfold onSubmit.
  destruct (submitHubspotForm _) as [result|reason]; [|done].
  by destruct (SubmissionResult.success result).
Qed.

(** The render returns the error view: the resolver is built, if there is a
    configuration to build it from, and the chain of [return]s stops at the
    error. *)
Lemma HubspotForm_ErrorView (rt : Runtime) (st : State.t) (message : string) :
  HubspotForm rt st = Normal (ErrorView message) <->
  renders rt st /\ State.loading st = false /\
  shown (State.error st) = Some message.
Proof.
  unfold renders, HubspotForm. rewrite <- render_ErrorView.
  destruct (State.formConfig st) as [formConfig|].
  - destruct (generateZodSchema rt formConfig) as [o|e]; simpl.
    + split; [intros [= H]; split; [by eexists | done] | by intros [_ ->]].
    + split; [done | by intros [[view Hview] _]].
  - split; [intros [= H]; split; [by eexists | done] | by intros [_ ->]].
Qed.

(** A fetch that does not load a form leaves the render as able to return
    as it was. *)
Lemma renders_formConfig (rt : Runtime) (st st' : State.t) :
  State.formConfig st' = State.formConfig st -> renders rt st -> renders rt st'.
Proof.
  unfold renders, HubspotForm. intros ->.
  destruct (State.formConfig st) as [formConfig|]; [|by eexists].
  destruct (generateZodSchema rt formConfig); simpl; [by eexists|].
  by intros [view Hview].
Qed.

Lemma renders_config (rt : Runtime) (st : State.t) (config : FormConfig.t)
      (o : ZodObject) :
  State.formConfig st = Some config -> generateZodSchema rt config = Normal o ->
  renders rt st.
Proof. unfold renders, HubspotForm. intros -> ->. by eexists. Qed.

Lemma renders_failed_fetch (rt : Runtime) (r : FetchResult.t) (st : State.t) :
  FetchResult.success r = false -> renders rt st ->
  renders rt (fetchForm (Resolved r) st).
Proof.
  intros Hfail. apply renders_formConfig. by rewrite (fetchForm_failed r st Hfail).
Qed.

Lemma step_keeps_ErrorView (rt : Runtime)
      (submitHubspotForm : SubmissionPayload.t -> Settled SubmissionResult.t)
      (props : Props.t) (page : Page.t) (st : State.t) (message : string) (e : Event) :
  HubspotForm rt st = Normal (ErrorView message) -> keepsErrorView rt e ->
  exists message',
    HubspotForm rt (step submitHubspotForm props page st e) = Normal (ErrorView message').
Proof.
  rewrite HubspotForm_ErrorView. intros (Hrenders & Hloading & Hshown) Hkeeps.
  destruct e as [[r|reason]|values]; cbn [step].
  - cbn [keepsErrorView] in Hkeeps. unfold fetchForm.
    destruct (FetchResult.success r) eqn:Hsuccess,
             (FetchResult.data r) as [data|] eqn:Hdata.
    + destruct Hkeeps as [o Ho]. exists message. apply HubspotForm_ErrorView.
      split; [|by split]. by eapply renders_config.
    + eexists. apply HubspotForm_ErrorView.
      split; [by eapply renders_formConfig; [|exact Hrenders]|].
      split; [done|]. by apply shown_nonempty, orFallback_nonempty.
    + eexists. apply HubspotForm_ErrorView.
      split; [by eapply renders_formConfig; [|exact Hrenders]|].
      split; [done|]. by apply shown_nonempty, orFallback_nonempty.
    + eexists. apply HubspotForm_ErrorView.
      split; [by eapply renders_formConfig; [|exact Hrenders]|].
      split; [done|]. by apply shown_nonempty, orFallback_nonempty.
  - cbn [keepsErrorView] in Hkeeps. destruct reason as [m|].
    + exists m. apply HubspotForm_ErrorView.
      split; [by eapply renders_formConfig; [|exact Hrenders]|].
      split; [done|]. apply shown_nonempty. by intros ->.
    + exists "Failed to fetch form". apply HubspotForm_ErrorView.
      split; [by eapply renders_formConfig; [|exact Hrenders]|]. by split.
  - exists message. apply HubspotForm_ErrorView.
    destruct (onSubmit_keeps_fetch_state submitHubspotForm props page values st)
      as [Hl He].
    split; [|by rewrite Hl, He].
    eapply renders_formConfig; [|exact Hrenders].
    apply onSubmit_keeps_formConfig.
Qed.

Lemma submits_keep_ErrorView (rt : Runtime)
      (submitHubspotForm : SubmissionPayload.t -> Settled SubmissionResult.t)
      (props : Props.t) (page : Page.t) (submits : list (gmap string FieldValue))
      (st : State.t) (message : string) :
  HubspotForm rt st = Normal (ErrorView message) ->
  HubspotForm rt (run submitHubspotForm props page (map Submitted submits) st)
  = Normal (ErrorView message).
Proof.
  revert st. induction submits as [|values submits IH]; intros st Hview; [done|].
  cbn [map run fold_left]. apply IH. cbn [step].
  apply HubspotForm_ErrorView in Hview as (Hrenders & Hloading & Hshown).
  apply HubspotForm_ErrorView.
  destruct (onSubmit_keeps_fetch_state submitHubspotForm props page values st)
    as [Hl He].
  split; [|by rewrite Hl, He].
  eapply renders_formConfig; [|exact Hrenders].
  apply onSubmit_keeps_formConfig.
Qed.

(** C7, as the code has it.  On a component whose render returns (no
    configuration is loaded, as on a fresh mount, or the validator of the
    loaded one builds): whenever [getHubspotForm] returns an unsuccessful
    result [{success: false, error: m}], the component renders the error
    view with [m], or with "Failed to fetch form" when the result has no
    error or an empty one; whenever it throws a value that is not an
    [Error] instance the component renders the error view with "Failed to
    fetch form", and whenever it throws an [Error] instance with a
    non-empty message, with that message.  Once rendered, the error view
    stays: submits, whatever their number and outcome, leave it with its
    message, and after every sequence of submits and of later fetches,
    however they settle, the component still renders the error view, save
    for two later fetches: one that throws an [Error] with an empty
    message, and one that loads a form on which [generateZodSchema]
    throws, after which the render throws. *)
Theorem fetch_failure_error_view :
  forall (rt : Runtime)
         (submitHubspotForm : SubmissionPayload.t -> Settled SubmissionResult.t)
         (props : Props.t) (page : Page.t),
    renders rt State.initial /\
    (forall st r m,
        renders rt st ->
        FetchResult.success r = false -> FetchResult.error r = Some m -> m <> "" ->
        HubspotForm rt (fetchForm (Resolved r) st) = Normal (ErrorView m)) /\
    (forall st r,
        renders rt st ->
        FetchResult.success r = false ->
        FetchResult.error r = None \/ FetchResult.error r = Some "" ->
        HubspotForm rt (fetchForm (Resolved r) st)
        = Normal (ErrorView "Failed to fetch form")) /\
    (forall st,
        renders rt st ->
        HubspotForm rt (fetchForm (Rejected NotAnError) st)
        = Normal (ErrorView "Failed to fetch form")) /\
    (forall st m,
        renders rt st -> m <> "" ->
        HubspotForm rt (fetchForm (Rejected (ErrorInstance m)) st)
        = Normal (ErrorView m)) /\
    (forall st m submits,
        HubspotForm rt st = Normal (ErrorView m) ->
        HubspotForm rt (run submitHubspotForm props page (map Submitted submits) st)
        = Normal (ErrorView m)) /\
    (forall st m events,
        HubspotForm rt st = Normal (ErrorView m) ->
        Forall (keepsErrorView rt) events ->
        exists m',
          HubspotForm rt (run submitHubspotForm props page events st)
          = Normal (ErrorView m')).
Proof.
  intros rt submit props page. split; [by eexists|]. repeat split.
  - intros st r m Hrenders Hfail Herr Hne. apply HubspotForm_ErrorView.
    split; [by apply renders_failed_fetch|].
    rewrite (fetchForm_failed r st Hfail), Herr.
    assert (orFallback (Some m) "Failed to fetch form" = m) as ->.
    { simpl. by destruct (String.eqb_spec m ""). }
    split; [done|]. by apply shown_nonempty.
  - intros st r Hrenders Hfail Herr. apply HubspotForm_ErrorView.
    split; [by apply renders_failed_fetch|].
    rewrite (fetchForm_failed r st Hfail).
    by destruct Herr as [-> | ->].
  - intros st Hrenders. apply HubspotForm_ErrorView.
    split; [by eapply renders_formConfig; [|exact Hrenders]|]. by split.
  - intros st m Hrenders Hne. apply HubspotForm_ErrorView.
    split; [by eapply renders_formConfig; [|exact Hrenders]|].
    split; [done|]. by apply shown_nonempty.
  - intros st m submits Hview. by apply submits_keep_ErrorView.
  - intros st m events Hview Hall. revert st m Hview.
    induction Hall as [|e events He _ IH]; intros st m Hview; [by exists m|].
    destruct (step_keeps_ErrorView rt submit props page st m e Hview He) as [m' Hstep].
    exact (IH _ _ Hstep).
Qed.

(** Scenario 3 of the specification. *)
Lemma fetch_failure_error_view_witness :
  HubspotForm exampleRuntime
              (fetchForm (Resolved (FetchResult.mk false None (Some "not found")))
                         State.initial)
  = Normal (ErrorView "not found").
Proof.
  destruct (fetch_failure_error_view exampleRuntime (fun _ => Rejected NotAnError)
                                     hostProps hostPage)
    as (Hinitial & Hresult & _).
  apply Hresult; [exact Hinitial | reflexivity | reflexivity | discriminate].
Defined.

(** The second fetch that the error view does not survive: after a failed
    fetch, one that loads a form with an email field that is not required
    makes the render throw. *)
Example later_fetch_of_throwing_form :
  let failed :=
    fetchForm (Resolved (FetchResult.mk false None (Some "not found")))
              State.initial in
  HubspotForm exampleRuntime failed = Normal (ErrorView "not found") /\
  HubspotForm exampleRuntime
    (fetchForm (Resolved (FetchResult.mk true (Some newsletterForm) None)) failed)
  = Throw (TypeError "fieldSchema.email is not a function").
Proof. split; reflexivity. Qed.

(** C7 as stated fails when [getHubspotForm] throws an [Error] with no
    message: the stored error is the empty string and the controller shows
    "No form configuration available", not the error view. *)
Lemma fetch_thrown_empty_message :
  State.error (fetchForm (Rejected (ErrorInstance "")) State.initial) = Some "" /\
  render (fetchForm (Rejected (ErrorInstance "")) State.initial) = NoConfigView /\
  HubspotForm exampleRuntime (fetchForm (Rejected (ErrorInstance "")) State.initial)
  = Normal NoConfigView.
Proof. repeat split; reflexivity. Qed.

(** * Further properties *)

(** ** The translator *)

Lemma translated_map (groups : list HubspotFieldGroup.t) :
  translated groups = map convertField (flat_map HubspotFieldGroup.fields groups).
Proof.
  unfold translated. induction groups as [|g groups IH]; simpl; [done|].
  by rewrite map_app, IH.
Qed.

Lemma convert_fields (hubspotForm : HubspotFormData.t) :
  FormConfig.fields (convertHubspotFormToConfig hubspotForm)
  = map convertField (definitions hubspotForm).
Proof. rewrite convert_closed_form. simpl. apply translated_map. Qed.

(** X1. The translator keeps what it does not decide: the configuration
    has the name of the form and one field per definition, in the order of
    the definitions, with the name, label, description and placeholder of
    the definition; [required] is always present and is the flag of the
    definition; [validation] is never set. *)
Theorem translator_keeps_definitions :
  forall hubspotForm : HubspotFormData.t,
    let config := convertHubspotFormToConfig hubspotForm in
    FormConfig.name config = HubspotFormData.name hubspotForm /\
    length (FormConfig.fields config) = length (definitions hubspotForm) /\
    map FormFieldConfig.name (FormConfig.fields config)
    = map HubspotField.name (definitions hubspotForm) /\
    map FormFieldConfig.label (FormConfig.fields config)
    = map HubspotField.label (definitions hubspotForm) /\
    map FormFieldConfig.description (FormConfig.fields config)
    = map HubspotField.description (definitions hubspotForm) /\
    map FormFieldConfig.placeholder (FormConfig.fields config)
    = map HubspotField.placeholder (definitions hubspotForm) /\
    map FormFieldConfig.required (FormConfig.fields config)
    = map (fun f => Some (HubspotField.required f)) (definitions hubspotForm) /\
    Forall (fun field => FormFieldConfig.validation field = None)
           (FormConfig.fields config).
Proof.
  intros form config. unfold config. rewrite convert_fields.
  split; [by rewrite convert_closed_form|].
  rewrite length_map, !map_map.
  repeat split; try (apply map_ext; intros f; apply convertField_copies).
  apply Forall_map, Forall_forall. intros f _. unfold convertField.
  repeat match goal with |- context [if ?b then _ else _] => destruct b end; done.
Qed.

(** X2. The control a definition ends up with: checkboxes for
    "multiple_checkboxes" and a select box for "dropdown", over the options
    of the definition (none when it has no options), the select box with
    the placeholder of the definition or "Select an option"; an input of
    type "email" for a definition the translator makes an email field of;
    an input of type "text" for every other definition, "number" and
    "multi_line_text" among them. *)
Theorem control_of_definition :
  forall f : HubspotField.t,
    let options := match HubspotField.options f with Some l => l | None => [] end in
    (HubspotField.fieldType f = "multiple_checkboxes" ->
     renderField (convertField f) = Checkboxes options) /\
    (HubspotField.fieldType f = "dropdown" ->
     renderField (convertField f)
     = SelectBox (orFallback (HubspotField.placeholder f) "Select an option") options) /\
    (becomesEmail f ->
     renderField (convertField f) = InputBox "email" (HubspotField.placeholder f)) /\
    (HubspotField.fieldType f <> "multiple_checkboxes" ->
     HubspotField.fieldType f <> "dropdown" ->
     ~ becomesEmail f ->
     renderField (convertField f) = InputBox "text" (HubspotField.placeholder f)).
Proof.
  intros f options. unfold options.
  pose proof (includes_email_iff (HubspotField.name f)) as Hmentions.
  unfold becomesEmail, recognised, renderField, optionsOf, convertField.
  rewrite copy_options.
  destruct (String.eqb_spec (HubspotField.fieldType f) "email") as [He|He];
    [rewrite He; simpl; repeat split; intros; try done; tauto|].
  destruct (String.eqb_spec (HubspotField.fieldType f) "dropdown") as [Hd|Hd];
    [rewrite Hd; simpl; repeat split; intros; try done; intuition congruence|].
  destruct (String.eqb_spec (HubspotField.fieldType f) "multiple_checkboxes") as [Hc|Hc];
    [rewrite Hc; simpl; repeat split; intros; try done; intuition congruence|].
  destruct (String.eqb_spec (HubspotField.fieldType f) "number") as [Hn|Hn];
    [rewrite Hn; simpl; repeat split; intros; try done; intuition congruence|].
  destruct (String.eqb_spec (HubspotField.fieldType f) "multi_line_text") as [Hm|Hm];
    [rewrite Hm; simpl; repeat split; intros; try done; intuition congruence|].
  destruct (includes (toLowerCase (HubspotField.name f)) "email") eqn:Hinc;
    simpl; repeat split; intros; try done.
  - exfalso. intuition.
  - intuition congruence.
Qed.

(** ** The validator *)


(** X3. The validator has a key for each field name of the configuration
    and no other key: a name other than ["__proto__"], under which an
    assignment adds no key to an object, is a key of the validator exactly
    when it is the name of a field. *)
Theorem validator_keys :
  forall (rt : Runtime) (config : FormConfig.t) (o : ZodObject) (key : string),
    generateZodSchema rt config = Normal o ->
    key <> "__proto__" ->
    (is_Some (shape o !! key) <->
     exists field, field ∈ FormConfig.fields config /\ FormFieldConfig.name field = key).
Proof.
  intros rt config o key Hgen _. rewrite <- fieldNamed_is_Some.
  unfold generateZodSchema in Hgen.
  destruct (fold_left (addField rt) (FormConfig.fields config) (Normal ∅))
    as [sch|e] eqn:Hfold; simpl in Hgen; [|done].
  injection Hgen as <-. simpl.
  pose proof (addField_fold_lookup rt _ _ _ key Hfold) as H.
  destruct (fieldNamed (FormConfig.fields config) key) as [field|].
  - destruct H as (s & _ & ->). split; eauto.
  - rewrite H, lookup_empty. split; by intros [? ?].
Qed.

Lemma validator_keys_witness :
  exists o, generateZodSchema exampleRuntime optionalForm = Normal o /\
            is_Some (shape o !! "message") /\ ~ is_Some (shape o !! "phone").
Proof.
  destruct optionalForm_returns as [o Ho]. exists o. split; [exact Ho|]. split.
  - apply (validator_keys exampleRuntime optionalForm o "message" Ho); [discriminate|].
    exists (plainField "message" multi_line_text false). split; [|done].
    right. left.
  - intros Hsome.
    apply (validator_keys exampleRuntime optionalForm o "phone" Ho) in Hsome
      as (field & Hin & Hname); [|discriminate].
    repeat (apply elem_of_cons in Hin as [-> | Hin]; [discriminate Hname|]).
    inversion Hin.
Defined.


Lemma requiredForm_returns :
  exists o, generateZodSchema exampleRuntime requiredForm = Normal o.
Proof.
  apply generateZodSchema_returns_iff. intros field Hin.
  repeat (apply elem_of_cons in Hin as [-> | Hin]; [reflexivity|]).
  inversion Hin.
Defined.














(** ** The initial values *)

Lemma initialValues_fold_lookup (fs : list FormFieldConfig.t)
      (acc : gmap string FieldValue) (key : string) :
  fold_left
    (fun acc field =>
       <[FormFieldConfig.name field :=
           match FormFieldConfig.type field with
           | multiselect => FStrings []
           | _ => FString ""
           end]> acc) fs acc !! key
  = match fieldNamed fs key with
    | Some field => Some (initialValueOf field)
    | None => acc !! key
    end.
Proof.
  revert acc. induction fs as [|f fs IH]; intros acc; cbn [fold_left fieldNamed];
    [done|].
  rewrite IH. destruct (fieldNamed fs key) as [later|]; [done|].
  destruct (String.eqb_spec (FormFieldConfig.name f) key) as [<-|Hne].
  - rewrite lookup_insert_eq. unfold initialValueOf.
    by destruct (FormFieldConfig.type f).
  - by rewrite lookup_insert_ne.
Qed.

Lemma initialValues_lookup (config : FormConfig.t) (key : string) :
  initialValues config !! key
  = initialValueOf <$> fieldNamed (FormConfig.fields config) key.
Proof.
  unfold initialValues. rewrite initialValues_fold_lookup.
  by destruct (fieldNamed (FormConfig.fields config) key).
Qed.

Lemma initialValues_wellTyped (config : FormConfig.t) :
  wellTyped config (initialValues config).
Proof.
  intros key. rewrite initialValues_lookup.
  destruct (fieldNamed (FormConfig.fields config) key) as [field|]; [|done].
  simpl. eexists. split; [done|].
  unfold holdsValueOf, initialValueOf.
  destruct (FormFieldConfig.type field); try done.
  - by left.
  - intros x Hx. inversion Hx.
Qed.

(** X10. The values [fetchForm] resets the form to have an entry for each
    field name of the configuration and no other, ["__proto__"] apart,
    under which an assignment adds no entry to an object: under every
    other name the entry is the empty list for a multiselect field and the
    empty string for a field of another type, and there is one exactly
    when the configuration has a field of the name. *)
Theorem initial_values :
  forall (config : FormConfig.t) (key : string),
    key <> "__proto__" ->
    initialValues config !! key
    = match fieldNamed (FormConfig.fields config) key with
      | Some field =>
          Some (match FormFieldConfig.type field with
                | multiselect => FStrings []
                | text | email | select | number | multi_line_text => FString ""
                end)
      | None => None
      end /\
    (is_Some (initialValues config !! key) <->
     exists field, field ∈ FormConfig.fields config /\
                   FormFieldConfig.name field = key).
Proof.
  intros config key _. split.
  - rewrite initialValues_lookup.
    destruct (fieldNamed (FormConfig.fields config) key) as [field|]; [|done].
    simpl. unfold initialValueOf. by destruct (FormFieldConfig.type field).
  - rewrite initialValues_lookup, <- fieldNamed_is_Some.
    destruct (fieldNamed (FormConfig.fields config) key); simpl; split;
      intros [? ?]; eauto; done.
Qed.

Lemma initial_values_witness :
  initialValues (convertHubspotFormToConfig contactForm) !! "colors"
  = Some (FStrings []) /\
  initialValues (convertHubspotFormToConfig contactForm) !! "firstname"
  = Some (FString "") /\
  initialValues (convertHubspotFormToConfig contactForm) !! "phone" = None.
Proof.
  split; [|split].
  - apply (initial_values (convertHubspotFormToConfig contactForm) "colors").
    discriminate.
  - apply (initial_values (convertHubspotFormToConfig contactForm) "firstname").
    discriminate.
  - apply (initial_values (convertHubspotFormToConfig contactForm) "phone").
    discriminate.
Defined.

(** X11. An untouched form with a required field, or with a
    multi_line_text field, does not validate: [safeParse] fails on the
    initial values.  The field is one with a name other than
    ["__proto__"], under which neither the validator nor the initial
    values get an entry. *)
Theorem untouched_form_blocked :
  forall (rt : Runtime) (config : FormConfig.t) (o : ZodObject)
         (key : string) (field : FormFieldConfig.t),
    generateZodSchema rt config = Normal o ->
    fieldNamed (FormConfig.fields config) key = Some field ->
    key <> "__proto__" ->
    isRequired field = true \/ FormFieldConfig.type field = multi_line_text ->
    safeParse rt o (initialValues config) = false.
Proof.
  intros rt config o key field Hgen Hnamed _ Hblocked.
  destruct (safeParse rt o (initialValues config)) eqn:Hparse; [|done].
  exfalso.
  destruct (generateZodSchema_lookup rt _ _ _ _ Hgen Hnamed) as (s & Hs & Hlook).
  pose proof (proj1 (safeParse_true rt o (initialValues config)) Hparse key s Hlook)
    as Haccepts.
  unfold fieldAccepts, readField in Haccepts.
  rewrite Hlook, initialValues_lookup, Hnamed in Haccepts. simpl in Haccepts.
  unfold initialValueOf in Haccepts.
  destruct (FormFieldConfig.type field) eqn:Hty, (isRequired field) eqn:Hreq;
    field_schema Hs Hty Hreq; try discriminate Hs;
    try (destruct Hblocked; discriminate);
    destruct (String.eqb (FormFieldConfig.name field) "website");
    injection Hs as <-; simpl in Haccepts; try discriminate Haccepts;
    by destruct (emailRegex_test rt "").
Qed.

Lemma untouched_form_blocked_witness :
  exists o, generateZodSchema exampleRuntime requiredForm = Normal o /\
            safeParse exampleRuntime o (initialValues requiredForm) = false.
Proof.
  destruct requiredForm_returns as [o Ho]. exists o. split; [exact Ho|].
  apply (untouched_form_blocked exampleRuntime requiredForm o "firstname"
           (plainField "firstname" text true) Ho eq_refl); [discriminate|].
  by left.
Defined.

(** ** The translator and the validator together *)

Lemma convertField_type_email (f : HubspotField.t) :
  FormFieldConfig.type (convertField f) = email <-> becomesEmail f.
Proof.
  pose proof (convertField_policy f) as Hpolicy. unfold becomesEmail.
  split.
  - intros Hty. rewrite Hty in Hpolicy.
    inversion Hpolicy; unfold recognised in *; tauto.
  - intros Hemail.
    assert (TypePolicy f email None) as Hp.
    { destruct Hemail as [He | [Hu Hm]];
        [by apply policy_email | by apply policy_name_email]. }
    by destruct (TypePolicy_functional f _ _ _ _ Hpolicy Hp).
Qed.

Lemma convertField_type_number (f : HubspotField.t) :
  FormFieldConfig.type (convertField f) = number <->
  HubspotField.fieldType f = "number".
Proof.
  pose proof (convertField_policy f) as Hpolicy. split.
  - intros Hty. rewrite Hty in Hpolicy. by inversion Hpolicy.
  - intros Hn.
    by destruct (TypePolicy_functional f _ _ _ _ Hpolicy (policy_number f Hn)).
Qed.

(** X12. The component builds a validator for a HubSpot form exactly when
    the form has no optional definition that the translator makes an email
    field of (by its type, or by a name that contains "email") and no
    required definition of type "number"; for every other form
    [generateZodSchema] throws on the translated configuration. *)
Theorem validator_of_hubspot_form :
  forall (rt : Runtime) (hubspotForm : HubspotFormData.t),
    (exists o, generateZodSchema rt (convertHubspotFormToConfig hubspotForm) = Normal o)
    <->
    (forall f, f ∈ definitions hubspotForm ->
               ~ (becomesEmail f /\ HubspotField.required f = false) /\
               ~ (HubspotField.fieldType f = "number" /\ HubspotField.required f = true)).
Proof.
  intros rt form. rewrite generateZodSchema_returns_iff, convert_fields.
  assert (forall f, builderThrows (convertField f) = false <->
                    ~ (becomesEmail f /\ HubspotField.required f = false) /\
                    ~ (HubspotField.fieldType f = "number"
                       /\ HubspotField.required f = true)) as Hfield.
  { intros f. unfold builderThrows, isRequired.
    destruct (convertField_copies f) as (_ & _ & -> & _).
    rewrite <- convertField_type_email, <- convertField_type_number.
    destruct (FormFieldConfig.type (convertField f)), (HubspotField.required f);
      simpl; intuition congruence. }
  split.
  - intros Hall f Hin. apply Hfield, Hall. by apply list_elem_of_fmap_2.
  - intros Hall field Hin. apply list_elem_of_fmap in Hin as (f & -> & Hin).
    by apply Hfield, Hall.
Qed.

(** ** The controller *)

(** The response [onSubmit] reports for an outcome of the server action. *)
Lemma onSubmit_unfold
      (submitHubspotForm : SubmissionPayload.t -> Settled SubmissionResult.t)
      (props : Props.t) (page : Page.t) (values : gmap string FieldValue)
      (st : State.t) :
  let payload := buildPayload props page (State.formConfig st) values in
  let cleared :=
    State.setSubmitSuccess false
      (State.setSubmitError None (State.setIsSubmitting true st)) in
  onSubmit submitHubspotForm props page values st =
  (State.setIsSubmitting false
     match submitHubspotForm payload with
     | Resolved result =>
         if SubmissionResult.success result
         then State.formResetToDefaults (State.setSubmitSuccess true cleared)
         else State.setSubmitError
                (Some (orFallback (SubmissionResult.error result)
                                  "Failed to submit form")) cleared
     | Rejected reason =>
         State.setSubmitError
           (Some (thrownMessage reason "Failed to submit form")) cleared
     end,
   (if Props.onSubmissionData props
    then [CallSubmissionData
            (SubmissionData.mk (Props.formId props) (SubmissionPayload.fields payload)
                               (Page.href page) (Page.title page))]
    else [])
   ++ notifyResponse props (reportedResponse (submitHubspotForm payload))).
Proof.
  unfold onSubmit, reportedResponse.
  cbn [State.formConfig State.setIsSubmitting State.setSubmitError
       State.setSubmitSuccess].
  destruct (submitHubspotForm _) as [result|reason]; [|done].
  by destruct (SubmissionResult.success result).
Qed.

(** X13. Whatever the outcome of the server action, a submit calls
    [onSubmissionData] first, once, with the fields of the payload it
    sends, and then [onSubmissionResponse] once: with the result when the
    action resolves, also an unsuccessful one, and with
    [{success: false, error}] when it throws.  A callback the host did not
    give is not called. *)
Theorem onSubmit_calls :
  forall (submitHubspotForm : SubmissionPayload.t -> Settled SubmissionResult.t)
         (props : Props.t) (page : Page.t) (values : gmap string FieldValue)
         (st : State.t),
    let payload := buildPayload props page (State.formConfig st) values in
    (onSubmit submitHubspotForm props page values st).2
    = (if Props.onSubmissionData props
       then [CallSubmissionData
               (SubmissionData.mk (Props.formId props)
                                  (SubmissionPayload.fields payload)
                                  (Page.href page) (Page.title page))]
       else [])
      ++ (if Props.onSubmissionResponse props
          then [CallSubmissionResponse
                  match submitHubspotForm payload with
                  | Resolved result => result
                  | Rejected reason =>
                      SubmissionResult.mk false None
                        (Some (thrownMessage reason "Failed to submit form"))
                  end]
          else []).
Proof.
  intros submit props page values st payload.
  pose proof (onSubmit_unfold submit props page values st) as H. cbn zeta in H.
  rewrite H. cbn [snd]. unfold notifyResponse, reportedResponse. done.
Qed.

(** X14. A submit changes the submit state alone: the configuration, the
    fetch error, the loading flag and the default values stay; the form is
    no longer submitting; the banners are those of this submit, never both
    at once; the values of the form are reset to the default values on a
    successful result and stay as they are on every failure. *)
Theorem onSubmit_state :
  forall (submitHubspotForm : SubmissionPayload.t -> Settled SubmissionResult.t)
         (props : Props.t) (page : Page.t) (values : gmap string FieldValue)
         (st : State.t),
    let st' := (onSubmit submitHubspotForm props page values st).1 in
    let succeeded :=
      match submitHubspotForm
              (buildPayload props page (State.formConfig st) values) with
      | Resolved result => SubmissionResult.success result
      | Rejected _ => false
      end in
    State.formConfig st' = State.formConfig st /\
    State.error st' = State.error st /\
    State.loading st' = State.loading st /\
    State.defaultValues st' = State.defaultValues st /\
    State.isSubmitting st' = false /\
    State.submitSuccess st' = succeeded /\
    (succeeded = true -> State.submitError st' = None) /\
    (succeeded = false -> is_Some (State.submitError st')) /\
    State.values st' = (if succeeded then State.defaultValues st else State.values st).
Proof.
  intros submit props page values st st' succeeded. unfold st', succeeded.
  pose proof (onSubmit_unfold submit props page values st) as H. cbn zeta in H.
  rewrite H. cbn [fst].
  destruct (submit _) as [result|reason];
    [destruct (SubmissionResult.success result)|];
    repeat split; try done; intros _; by eexists.
Qed.

(** X15. When the server action resolves with an unsuccessful result the
    form always shows an error banner: the [error] of the result, or
    "Failed to submit form" when the result has none or an empty one. *)
Theorem onSubmit_unsuccessful_banner :
  forall (submitHubspotForm : SubmissionPayload.t -> Settled SubmissionResult.t)
         (props : Props.t) (page : Page.t) (values : gmap string FieldValue)
         (st : State.t) (result : SubmissionResult.t),
    submitHubspotForm (buildPayload props page (State.formConfig st) values)
    = Resolved result ->
    SubmissionResult.success result = false ->
    let st' := (onSubmit submitHubspotForm props page values st).1 in
    shown (State.submitError st')
    = Some (match SubmissionResult.error result with
            | Some m => if String.eqb m "" then "Failed to submit form" else m
            | None => "Failed to submit form"
            end) /\
    shown (State.submitError st') <> Some "" /\
    State.submitSuccess st' = false.
Proof.
  intros submit props page values st result Hresolved Hfail st'. unfold st'.
  pose proof (onSubmit_unfold submit props page values st) as H. cbn zeta in H.
  rewrite H, Hresolved, Hfail. cbn [fst State.submitError State.submitSuccess
    State.setIsSubmitting State.setSubmitError State.setSubmitSuccess].
  assert (orFallback (SubmissionResult.error result) "Failed to submit form" <> "")
    as Hne by by apply orFallback_nonempty.
  rewrite (shown_nonempty _ Hne). split; [|split; [congruence | done]].
  unfold orFallback. by destruct (SubmissionResult.error result).
Qed.

Lemma onSubmit_unsuccessful_banner_witness :
  shown (State.submitError
           (onSubmit (fun _ => Resolved (SubmissionResult.mk false None (Some "")))
                     hostProps hostPage filledValues readyState).1)
  = Some "Failed to submit form".
Proof.
  by destruct (onSubmit_unsuccessful_banner
                 (fun _ => Resolved (SubmissionResult.mk false None (Some "")))
                 hostProps hostPage filledValues readyState
                 (SubmissionResult.mk false None (Some "")) eq_refl eq_refl)
    as [-> _].
Defined.

(** ** The payload *)

Lemma payload_records (props : Props.t) (page : Page.t) (config : FormConfig.t)
      (values : gmap string FieldValue) (key : string) :
  let payload := buildPayload props page (Some config) values in
  match fieldNamed (FormConfig.fields config) key, values !! key with
  | Some field, Some value =>
      SubmissionPayload.fields payload !! key = Some (payloadEntry field value).1 /\
      SubmissionPayload.fieldTypes payload !! key = Some (payloadEntry field value).2
  | _, _ =>
      SubmissionPayload.fields payload !! key = None /\
      SubmissionPayload.fieldTypes payload !! key = None
  end.
Proof.
  intros payload.
  pose proof (collectField_fold_lookup values (FormConfig.fields config) ∅ ∅ key) as H.
  cbn zeta in H. unfold payload, buildPayload, collectFields.
  destruct (fold_left (collectField values) (FormConfig.fields config) (∅, ∅)).
  by rewrite !lookup_empty in H.
Qed.

(** X16. The tags of the payload are external tags: every entry of
    [fieldTypes] is one of "text", "email", "select", "number",
    "multi_line_text" and "multiple_checkboxes", never the internal
    "multiselect"; and under "multiple_checkboxes" the entry of [fields] is
    always a list. *)
Theorem payload_tags :
  forall (props : Props.t) (page : Page.t) (config : FormConfig.t)
         (values : gmap string FieldValue) (key tag : string),
    let payload := buildPayload props page (Some config) values in
    SubmissionPayload.fieldTypes payload !! key = Some tag ->
    tag ∈ externalTags /\ tag <> "multiselect" /\
    (tag = "multiple_checkboxes" ->
     exists l, SubmissionPayload.fields payload !! key = Some (FStrings l)).
Proof.
  intros props page config values key tag payload Htag.
  pose proof (payload_records props page config values key) as H.
  cbn zeta in H. fold payload in H.
  destruct (fieldNamed (FormConfig.fields config) key) as [field|];
    [destruct (values !! key) as [value|]|];
    destruct H as [Hfields Htypes]; rewrite Htypes in Htag; try done.
  injection Htag as <-. rewrite Hfields. unfold payloadEntry, externalTags.
  destruct (FormFieldConfig.type field); simpl;
    (split; [set_solver|]); (split; [done|]); try done.
  intros _. destruct value; eauto.
Qed.

Lemma payload_tags_witness :
  let payload := buildPayload hostProps hostPage (Some colorsForm)
                              {[ "colors" := FString "red" ]} in
  "multiple_checkboxes" ∈ externalTags /\ "multiple_checkboxes" <> "multiselect" /\
  ("multiple_checkboxes" = "multiple_checkboxes" ->
   exists l, SubmissionPayload.fields payload !! "colors" = Some (FStrings l)).
Proof.
  apply (payload_tags hostProps hostPage colorsForm {[ "colors" := FString "red" ]}
                      "colors" "multiple_checkboxes").
  reflexivity.
Defined.

(** X17. On well typed values the payload carries the values as they are:
    its [fields] are the values of the form, nothing is wrapped or left
    out, and [fieldTypes] has the tag of the field of each name. *)
Theorem payload_of_well_typed_values :
  forall (props : Props.t) (page : Page.t) (config : FormConfig.t)
         (values : gmap string FieldValue),
    wellTyped config values ->
    let payload := buildPayload props page (Some config) values in
    SubmissionPayload.fields payload = values /\
    (forall key field,
        fieldNamed (FormConfig.fields config) key = Some field ->
        SubmissionPayload.fieldTypes payload !! key
        = Some (match FormFieldConfig.type field with
                | multiselect => "multiple_checkboxes"
                | t => typeTag t
                end)).
Proof.
  intros props page config values Htyped payload. split.
  - apply map_eq. intros key.
    pose proof (payload_records props page config values key) as H.
    cbn zeta in H. fold payload in H. specialize (Htyped key).
    destruct (fieldNamed (FormConfig.fields config) key) as [field|].
    + destruct Htyped as (v & Hv & Hholds). rewrite Hv in H |- *.
      destruct H as [-> _]. f_equal.
      unfold payloadEntry, holdsValueOf in *.
      by destruct (FormFieldConfig.type field), v.
    + rewrite Htyped. by destruct H as [-> _].
  - intros key field Hnamed.
    pose proof (payload_records props page config values key) as H.
    cbn zeta in H. fold payload in H. specialize (Htyped key).
    rewrite Hnamed in H, Htyped. destruct Htyped as (v & Hv & _).
    rewrite Hv in H. destruct H as [_ ->]. unfold payloadEntry.
    by destruct (FormFieldConfig.type field).
Qed.

Lemma payload_of_well_typed_values_witness :
  SubmissionPayload.fields
    (buildPayload hostProps hostPage (Some requiredForm) (initialValues requiredForm))
  = initialValues requiredForm.
Proof.
  apply (payload_of_well_typed_values hostProps hostPage requiredForm
                                      (initialValues requiredForm)).
  apply initialValues_wellTyped.
Defined.

(** ** The controls *)

Lemma currentValues_insert (values : gmap string FieldValue) (name : string)
      (l : list string) :
  currentValues (<[name := FStrings l]> values) name = FStrings l.
Proof. unfold currentValues. by rewrite lookup_insert_eq. Qed.

Lemma onCheckedChange_list (values : gmap string FieldValue) (name v : string)
      (l : list string) (checked : bool) :
  currentValues values name = FStrings l ->
  onCheckedChange values name v checked
  = Normal (<[name := FStrings (if checked then l ++ [v]
                                else filter (fun x => x <> v) l)]> values).
Proof. intros Hcurrent. unfold onCheckedChange. by rewrite Hcurrent. Qed.

Lemma filter_other_id (v : string) (l : list string) :
  v ∉ l -> filter (fun x => x <> v) l = l.
Proof.
  induction l as [|a l IH]; [done|]. intros Hnotin.
  apply not_elem_of_cons in Hnotin as [Hne Hnotin].
  rewrite filter_cons_True by done. by rewrite IH.
Qed.

Lemma filter_other_notin (v : string) (l : list string) :
  v ∉ filter (fun x => x <> v) l.
Proof. rewrite list_elem_of_filter. by intros [? _]. Qed.

(** X18. A click on the checkbox of an option, on a field that holds a
    list (or nothing yet): the handler returns, the field holds a list
    again, the checkbox of the option is then checked exactly when the
    click checked it, the checkboxes of the other options and the values
    of the other fields are as before. *)
Theorem checkbox_click :
  forall (values : gmap string FieldValue) (name v : string) (l : list string)
         (checked : bool),
    currentValues values name = FStrings l ->
    exists values' l',
      onCheckedChange values name v checked = Normal values' /\
      values' !! name = Some (FStrings l') /\
      isChecked values' name v = checked /\
      (forall w, w <> v -> isChecked values' name w = isChecked values name w) /\
      (forall other, other <> name -> values' !! other = values !! other).
Proof.
  intros values name v l checked Hcurrent.
  eexists _, _. split; [by apply onCheckedChange_list|].
  split; [apply lookup_insert_eq|].
  unfold isChecked. rewrite currentValues_insert, Hcurrent.
  split; [|split].
  - destruct checked.
    + apply bool_decide_eq_true. apply elem_of_app. right. by left.
    + apply bool_decide_eq_false. apply filter_other_notin.
  - intros w Hw. apply bool_decide_ext. destruct checked.
    + rewrite elem_of_app, list_elem_of_singleton. tauto.
    + rewrite list_elem_of_filter. tauto.
  - intros other Hother. by apply lookup_insert_ne.
Qed.

Lemma checkbox_click_witness :
  exists values' l',
    onCheckedChange filledValues "colors" "blue" true = Normal values' /\
    values' !! "colors" = Some (FStrings l') /\
    isChecked values' "colors" "blue" = true /\
    (forall w, w <> "blue" ->
               isChecked values' "colors" w = isChecked filledValues "colors" w) /\
    (forall other, other <> "colors" -> values' !! other = filledValues !! other).
Proof.
  apply (checkbox_click filledValues "colors" "blue" ["red"] true). reflexivity.
Defined.

(** X19. Checking an option that is not selected and unchecking it gives
    the list back; checking it twice keeps two copies of its value, and
    one uncheck removes them both. *)
Theorem checkbox_round_trip :
  forall (values : gmap string FieldValue) (name v : string) (l : list string),
    currentValues values name = FStrings l ->
    v ∉ l ->
    (values1 ← onCheckedChange values name v true;
     onCheckedChange values1 name v false)
    = Normal (<[name := FStrings l]> values) /\
    (values1 ← onCheckedChange values name v true;
     onCheckedChange values1 name v true)
    = Normal (<[name := FStrings (l ++ [v; v])]> values) /\
    (values1 ← onCheckedChange values name v true;
     values2 ← onCheckedChange values1 name v true;
     onCheckedChange values2 name v false)
    = Normal (<[name := FStrings l]> values).
Proof.
  intros values name v l Hcurrent Hnotin.
  rewrite (onCheckedChange_list values name v l true Hcurrent).
  cbn [mbind Completion_bind].
  rewrite !(onCheckedChange_list _ name v (l ++ [v]) _ (currentValues_insert _ _ _)).
  cbn [mbind Completion_bind].
  rewrite (onCheckedChange_list _ name v ((l ++ [v]) ++ [v]) false
             (currentValues_insert _ _ _)).
  rewrite !insert_insert_eq, !filter_app, (filter_other_id v l Hnotin).
  rewrite !filter_cons_False, !filter_nil, !app_nil_r by (intros H; by apply H).
  by rewrite <- app_assoc.
Qed.

Lemma checkbox_round_trip_witness :
  (values1 ← onCheckedChange filledValues "colors" "blue" true;
   onCheckedChange values1 "colors" "blue" false)
  = Normal (<[ "colors" := FStrings ["red"] ]> filledValues).
Proof.
  apply (checkbox_round_trip filledValues "colors" "blue" ["red"]).
  - reflexivity.
  - intros Hin. apply list_elem_of_singleton in Hin. discriminate Hin.
Defined.

Lemma wellTyped_insert (config : FormConfig.t) (values : gmap string FieldValue)
      (name : string) (field : FormFieldConfig.t) (v : FieldValue) :
  wellTyped config values ->
  fieldNamed (FormConfig.fields config) name = Some field ->
  holdsValueOf field v ->
  wellTyped config (<[name := v]> values).
Proof.
  intros Htyped Hnamed Hholds key.
  destruct (decide (name = key)) as [<-|Hne].
  - rewrite Hnamed, lookup_insert_eq. eauto.
  - rewrite lookup_insert_ne by done. apply Htyped.
Qed.

Lemma applyEdit_wellTyped (config : FormConfig.t) (values : gmap string FieldValue)
      (field : FormFieldConfig.t) (edit : Edit) :
  distinctNames config ->
  field ∈ FormConfig.fields config ->
  wellTyped config values ->
  exists values',
    applyEdit (renderField field) (FormFieldConfig.name field) edit values
    = Normal values' /\
    wellTyped config values' /\
    (forall other, other <> FormFieldConfig.name field ->
                   values' !! other = values !! other).
Proof.
  intros Hdistinct Hin Htyped.
  pose proof (fieldNamed_NoDup _ _ Hdistinct Hin) as Hnamed.
  pose proof (Htyped (FormFieldConfig.name field)) as Hheld.
  rewrite Hnamed in Hheld. destruct Hheld as (held & Hheld & Hholds).
  assert (forall v, holdsValueOf field v ->
            exists values',
              Normal (<[FormFieldConfig.name field := v]> values) = Normal values' /\
              wellTyped config values' /\
              (forall other, other <> FormFieldConfig.name field ->
                             values' !! other = values !! other)) as Hset.
  { intros v Hv. eexists. split; [done|]. split.
    - by eapply wellTyped_insert.
    - intros other Hother. by apply lookup_insert_ne. }
  assert (exists values', Normal values = Normal values' /\
            wellTyped config values' /\
            (forall other, other <> FormFieldConfig.name field ->
                           values' !! other = values !! other)) as Hsame
    by (by exists values).
  unfold renderField, applyEdit, setValue.
  destruct (FormFieldConfig.type field) eqn:Hty, edit as [v checked|v|typed];
    try exact Hsame;
    try (apply Hset; unfold holdsValueOf; by rewrite Hty).
  - (* select *)
    case_bool_decide as Hoption; [|exact Hsame].
    apply Hset. unfold holdsValueOf. rewrite Hty. by right.
  - (* multiselect *)
    case_bool_decide as Hoption; [|exact Hsame].
    unfold holdsValueOf in Hholds. rewrite Hty in Hholds.
    destruct held as [s|l]; [done|].
    rewrite (onCheckedChange_list values _ v l checked)
      by (unfold currentValues; by rewrite Hheld).
    apply Hset. unfold holdsValueOf. rewrite Hty. intros x Hx.
    destruct checked.
    + apply elem_of_app in Hx as [Hx|Hx]; [by apply Hholds|].
      apply list_elem_of_singleton in Hx as ->. exact Hoption.
    + apply list_elem_of_filter in Hx as [_ Hx]. by apply Hholds.
Qed.

(** X20. With distinct field names, no edit of a rendered control breaks
    the typing of the values: the handler of the control returns (the
    [filter] of the checkbox handler is never called on a string), a
    multiselect field still holds a list of values of its options, a
    select field the empty string or the value of an option, a field of
    another type a string, no key is added, and the other fields keep their
    values. *)
Theorem edit_keeps_well_typed :
  forall (config : FormConfig.t) (values : gmap string FieldValue)
         (field : FormFieldConfig.t) (edit : Edit),
    distinctNames config ->
    field ∈ FormConfig.fields config ->
    wellTyped config values ->
    exists values',
      applyEdit (renderField field) (FormFieldConfig.name field) edit values
      = Normal values' /\
      wellTyped config values' /\
      (forall other, other <> FormFieldConfig.name field ->
                     values' !! other = values !! other).
Proof. exact applyEdit_wellTyped. Qed.

Lemma requiredForm_distinct : distinctNames requiredForm.
Proof. apply (bool_decide_unpack _). vm_compute. exact I. Defined.

Lemma edit_keeps_well_typed_witness :
  exists values',
    applyEdit (renderField (plainField "firstname" text true)) "firstname"
              (TypeText "Ada") (initialValues requiredForm)
    = Normal values' /\
    wellTyped requiredForm values' /\
    (forall other, other <> "firstname" ->
                   values' !! other = initialValues requiredForm !! other).
Proof.
  apply (edit_keeps_well_typed requiredForm (initialValues requiredForm)
           (plainField "firstname" text true) (TypeText "Ada")).
  - exact requiredForm_distinct.
  - left.
  - apply initialValues_wellTyped.
Defined.

(** Without the typing the checkbox handler can fail: on a field that
    holds a non-empty string, unchecking calls [filter] on the string. *)
Lemma onCheckedChange_on_string (values : gmap string FieldValue)
      (name v s : string) :
  values !! name = Some (FString s) -> s <> "" ->
  onCheckedChange values name v false
  = Throw (TypeError "currentValues.filter is not a function").
Proof.
  intros Hheld Hne. unfold onCheckedChange, currentValues. rewrite Hheld.
  by destruct (String.eqb_spec s "").
Qed.

(** ** The state of the form under every interaction *)

Lemma consistent_step
      (submitHubspotForm : SubmissionPayload.t -> Settled SubmissionResult.t)
      (props : Props.t) (page : Page.t) (st : State.t) (i : Interaction) :
  loadsDistinctNames i ->
  consistent st /\
  (forall config, State.formConfig st = Some config -> distinctNames config) ->
  consistent (interact submitHubspotForm props page st i) /\
  (forall config,
      State.formConfig (interact submitHubspotForm props page st i) = Some config ->
      distinctNames config).
Proof.
  intros Hloads [Hcons Hdistinct].
  destruct i as [[[result|reason]|values]|index edit]; cbn [interact step].
  - (* the fetch resolves *)
    unfold fetchForm. cbn [loadsDistinctNames] in Hloads.
    destruct (FetchResult.success result), (FetchResult.data result) as [data|];
      try done.
    split.
    + unfold consistent. cbn. split; [apply initialValues_wellTyped | done].
    + cbn. by intros config [= <-].
  - (* the fetch throws *)
    done.
  - (* a submit *)
    pose proof (onSubmit_unfold submitHubspotForm props page values st) as H.
    cbn zeta in H. rewrite H. cbn [fst].
    unfold consistent in *.
    destruct (submitHubspotForm _) as [result|reason];
      [destruct (SubmissionResult.success result)|]; cbn in *; try done.
    split; [|done].
    destruct (State.formConfig st) as [config|].
    + destruct Hcons as [_ Hdefaults]. rewrite Hdefaults.
      split; [apply initialValues_wellTyped | done].
    + by destruct Hcons as [_ ->].
  - (* an edit *)
    destruct (render st); try done.
    destruct (State.formConfig st) as [config|] eqn:Hconfig; [|by rewrite Hconfig].
    destruct (FormConfig.fields config !! index) as [field|] eqn:Hfield;
      [|by rewrite Hconfig].
    unfold consistent in Hcons. rewrite Hconfig in Hcons.
    destruct Hcons as [Htyped Hdefaults].
    destruct (applyEdit_wellTyped config (State.values st) field edit)
      as (values' & -> & Htyped' & _);
      [by apply Hdistinct | by eapply list_elem_of_lookup_2 | done |].
    unfold consistent, setValues. cbn. rewrite Hconfig. by split.
Qed.

(** X21. From the mount on, under every sequence of fetches that settle in
    any way, submits with any outcome and edits of the rendered controls,
    as long as the forms that get loaded have distinct field names that
    are plain keys (made of letters, digits and underscores, and not the
    name of a member of [Object.prototype], ["__proto__"] among them):
    when a configuration is loaded the values of the form have an entry
    for each of its field names and for nothing else, every multiselect
    field holds a list and every other field a string, and the default
    values, to which a successful submit resets the form, are the initial
    values of the configuration; before a configuration is loaded the form
    has no values. *)
Theorem interactions_keep_consistent :
  forall (submitHubspotForm : SubmissionPayload.t -> Settled SubmissionResult.t)
         (props : Props.t) (page : Page.t) (l : list Interaction),
    Forall loadsDistinctNames l ->
    Forall loadsPlainNames l ->
    let st := interactions submitHubspotForm props page l State.initial in
    consistent st /\
    (forall config, State.formConfig st = Some config -> distinctNames config).
Proof.
  intros submit props page l Hall _. cbn zeta. unfold interactions.
  assert (consistent State.initial /\
          (forall config, State.formConfig State.initial = Some config ->
                          distinctNames config)) as Hinit by done.
  revert Hinit. generalize State.initial as st.
  induction Hall as [|i l Hi _ IH]; intros st Hst; [done|].
  cbn [fold_left]. apply IH. by apply consistent_step.
Qed.

Lemma contactForm_distinct : distinctNames (convertHubspotFormToConfig contactForm).
Proof. apply (bool_decide_unpack _). vm_compute. exact I. Defined.

Lemma contactForm_plain : plainNames (convertHubspotFormToConfig contactForm).
Proof.
  repeat constructor; try reflexivity;
    apply (bool_decide_unpack _); vm_compute; exact I.
Defined.

Lemma interactions_keep_consistent_witness :
  consistent (interactions (fun _ => Rejected NotAnError) hostProps hostPage
                           sessionOfContactForm State.initial).
Proof.
  apply (interactions_keep_consistent (fun _ => Rejected NotAnError) hostProps hostPage
                                      sessionOfContactForm).
  - constructor; [exact contactForm_distinct|]. repeat constructor.
  - constructor; [exact contactForm_plain|]. repeat constructor.
Defined.


(** A form with an email field that is not required: the fetch succeeds
    and the render throws. *)
Example optional_email_form_throws :
  HubspotForm exampleRuntime
    (fetchForm (Resolved (FetchResult.mk true (Some newsletterForm) None))
               State.initial)
  = Throw (TypeError "fieldSchema.email is not a function").
Proof. reflexivity. Qed.

(** ** The host *)

(** X23. What the sidebar is told after a submit of a form mounted in the
    container: the data are the fields of the payload that was sent; the
    response has the [success] and the [error] of the result when the
    server action resolves, and [success: false] with the message of the
    thrown value when it throws; its [data], when the result has some, are
    those of the result with [status] set to "completed", whatever status
    the result had.  Before any submit the sidebar is told of no data and
    of an unsuccessful response without data or error. *)
Theorem container_after_submit :
  forall (submitHubspotForm : SubmissionPayload.t -> Settled SubmissionResult.t)
         (formId : string) (page : Page.t) (values : gmap string FieldValue)
         (st : State.t) (c : Container.t),
    let props := containerProps formId in
    let payload := buildPayload props page (State.formConfig st) values in
    let c' := fold_left handleCall
                        (onSubmit submitHubspotForm props page values st).2 c in
    Container.submissionData c'
    = Some (SubmissionData.mk formId (SubmissionPayload.fields payload)
                              (Page.href page) (Page.title page)) /\
    sidebarResponse c'
    = match submitHubspotForm payload with
      | Resolved result =>
          SubmissionResult.mk
            (SubmissionResult.success result)
            (match SubmissionResult.data result with
             | Some data =>
                 Some (ResponseData.mk (ResponseData.inlineMessage data)
                                       (ResponseData.redirectUrl data)
                                       "completed"
                                       (ResponseData.correlationId data))
             | None => None
             end)
            (SubmissionResult.error result)
      | Rejected reason =>
          SubmissionResult.mk false None
            (Some (thrownMessage reason "Failed to submit form"))
      end /\
    Container.submissionData Container.initial = None /\
    sidebarResponse Container.initial = SubmissionResult.mk false None None.
Proof.
  intros submit formId page values st c props payload c'. unfold c'.
  pose proof (onSubmit_unfold submit props page values st) as H. cbn zeta in H.
  rewrite H. cbn [snd]. fold payload.
  unfold props, containerProps, notifyResponse, reportedResponse. cbn.
  repeat split; try done.
  unfold sidebarResponse. cbn.
  destruct (submit payload) as [result|reason]; [|done].
  by destruct (SubmissionResult.data result).
Qed.

(** ** The configuration *)

Lemma orFallback_empty_Some (e : option string) (s : string) :
  orFallback e "" = s -> s <> "" -> e = Some s.
Proof.
  unfold orFallback. destruct e as [x|]; [|by intros <-].
  destruct (String.eqb_spec x ""); [by intros <- | by intros <-].
Qed.

(** X24. The configuration module loads exactly when the three environment
    variables are set and not empty, and then its values are theirs; when
    one of them is missing or empty it throws "HubSpot configuration is
    missing required values", a missing variable and an empty one alike. *)
Theorem hubspot_config_loads :
  forall (env : gmap string string),
    (forall c,
        loadHubspotConfig env = Loaded c <->
        env !! "HUBSPOT_ACCESS_TOKEN" = Some (HubspotConfig.accessToken c) /\
        env !! "HUBSPOT_PORTAL_ID" = Some (HubspotConfig.portalId c) /\
        env !! "HUBSPOT_FORM_ID" = Some (HubspotConfig.formId c) /\
        HubspotConfig.accessToken c <> "" /\
        HubspotConfig.portalId c <> "" /\
        HubspotConfig.formId c <> "") /\
    ((forall c, loadHubspotConfig env <> Loaded c) ->
     loadHubspotConfig env
     = Failed "HubSpot configuration is missing required values").
Proof.
  intros env. split.
  - intros [token portal form]. unfold loadHubspotConfig. cbn. split.
    + destruct (String.eqb_spec (orFallback (env !! "HUBSPOT_ACCESS_TOKEN") "") "");
        [done|].
      destruct (String.eqb_spec (orFallback (env !! "HUBSPOT_PORTAL_ID") "") "");
        [done|].
      destruct (String.eqb_spec (orFallback (env !! "HUBSPOT_FORM_ID") "") "");
        [done|].
      cbn. intros [= Ht Hp Hf]. subst token portal form.
      repeat split; try done; by eapply orFallback_empty_Some.
    + intros (-> & -> & -> & Ht & Hp & Hf). cbn.
      destruct (String.eqb_spec token ""); [done|].
      destruct (String.eqb_spec portal ""); [done|].
      destruct (String.eqb_spec form ""); [done|]. cbn.
      destruct (String.eqb_spec token ""); [done|].
      destruct (String.eqb_spec portal ""); [done|].
      by destruct (String.eqb_spec form "").
  - intros Hnever. unfold loadHubspotConfig in *.
    destruct (_ || _ || _); [done|]. by edestruct Hnever.
Qed.

Lemma hubspot_config_loads_witness :
  loadHubspotConfig fullEnv = Loaded (HubspotConfig.mk "pat-123" "42" "form-1") /\
  loadHubspotConfig (delete "HUBSPOT_PORTAL_ID" fullEnv)
  = Failed "HubSpot configuration is missing required values".
Proof.
  split.
  - apply (hubspot_config_loads fullEnv). repeat split; done.
  - apply (hubspot_config_loads (delete "HUBSPOT_PORTAL_ID" fullEnv)).
    intros c Hc. apply (hubspot_config_loads _) in Hc as (_ & Hportal & _).
    discriminate Hportal.
Defined.

(** X25. The page never throws its own "HUBSPOT_FORM_ID environment
    variable is not set": an empty form id already stops the configuration
    module, whose error is the only one the page can raise.  The page
    renders the container exactly when the three variables are set and not
    empty, with the value of HUBSPOT_FORM_ID as the form id. *)
Theorem page_loads :
  forall (env : gmap string string),
    loadPage env <> Failed "HUBSPOT_FORM_ID environment variable is not set" /\
    (forall message,
        loadPage env = Failed message ->
        message = "HubSpot configuration is missing required values") /\
    (forall formId,
        loadPage env = Loaded formId <->
        env !! "HUBSPOT_FORM_ID" = Some formId /\ formId <> "" /\
        (exists token, env !! "HUBSPOT_ACCESS_TOKEN" = Some token /\ token <> "") /\
        (exists portal, env !! "HUBSPOT_PORTAL_ID" = Some portal /\ portal <> "")).
Proof.
  intros env. unfold loadPage, loadHubspotConfig. cbn.
  destruct (String.eqb_spec (orFallback (env !! "HUBSPOT_ACCESS_TOKEN") "") "")
    as [Ht|Ht]; cbn.
  { repeat split; try done; [by intros message [= <-]|].
    intros (_ & _ & (token & Htoken & Hne) & _). by rewrite Htoken in Ht;
      cbn in Ht; destruct (String.eqb_spec token ""). }
  destruct (String.eqb_spec (orFallback (env !! "HUBSPOT_PORTAL_ID") "") "")
    as [Hp|Hp]; cbn.
  { repeat split; try done; [by intros message [= <-]|].
    intros (_ & _ & _ & (portal & Hportal & Hne)). by rewrite Hportal in Hp;
      cbn in Hp; destruct (String.eqb_spec portal ""). }
  destruct (String.eqb_spec (orFallback (env !! "HUBSPOT_FORM_ID") "") "")
    as [Hf|Hf]; cbn.
  { repeat split; try done; [by intros message [= <-]|].
    intros (Hform & Hne & _). by rewrite Hform in Hf;
      cbn in Hf; destruct (String.eqb_spec formId ""). }
  destruct (String.eqb_spec (orFallback (env !! "HUBSPOT_FORM_ID") "") "");
    [done|].
  split; [done|]. split; [done|]. intros formId. split.
  - intros [= <-]. split; [by eapply orFallback_empty_Some|]. split; [done|].
    split; eexists; (split; [by eapply orFallback_empty_Some | done]).
  - intros (Hform & Hne & _). f_equal. rewrite Hform. cbn.
    by destruct (String.eqb_spec formId "").
Qed.

(** ** Edge cases *)

(** X26. The builder stops at the first field it fails on: when the fields
    before it build, the error [generateZodSchema] throws is the error of
    that field, whatever the fields after it are. *)
Theorem builder_first_error :
  forall (rt : Runtime) (config : FormConfig.t)
         (before after : list FormFieldConfig.t) (field : FormFieldConfig.t)
         (e : JsError),
    FormConfig.fields config = before ++ field :: after ->
    (forall f, f ∈ before -> builderThrows f = false) ->
    fieldSchemaOf rt field = Throw e ->
    generateZodSchema rt config = Throw e.
Proof.
  intros rt config before after field e Hfields Hbefore Hfield.
  unfold generateZodSchema. rewrite Hfields, fold_left_app.
  destruct (addField_fold_returns rt before ∅ Hbefore) as [sch ->].
  cbn [fold_left]. rewrite addField_Normal, Hfield.
  by rewrite addField_Throw.
Qed.

Lemma builder_first_error_witness :
  generateZodSchema exampleRuntime
    (formOf [plainField "firstname" text true;
             plainField "email" email false;
             plainField "age" number true])
  = Throw (TypeError "fieldSchema.email is not a function").
Proof.
  apply (builder_first_error exampleRuntime _ [plainField "firstname" text true]
           [plainField "age" number true] (plainField "email" email false)).
  - reflexivity.
  - intros f Hf. apply list_elem_of_singleton in Hf as ->. reflexivity.
  - reflexivity.
Defined.

(** X27. A HubSpot form without field definitions (no group, or empty
    groups alone) gives a configuration without fields, a validator that
    accepts every set of values, no initial values, and a payload without
    fields whatever the values are. *)
Theorem form_without_fields :
  forall (rt : Runtime) (hubspotForm : HubspotFormData.t) (props : Props.t)
         (page : Page.t) (values : gmap string FieldValue),
    definitions hubspotForm = [] ->
    let config := convertHubspotFormToConfig hubspotForm in
    FormConfig.fields config = [] /\
    generateZodSchema rt config = Normal (z_object ∅) /\
    safeParse rt (z_object ∅) values = true /\
    initialValues config = ∅ /\
    SubmissionPayload.fields (buildPayload props page (Some config) values) = ∅ /\
    SubmissionPayload.fieldTypes (buildPayload props page (Some config) values) = ∅.
Proof.
  intros rt form props page values Hnone config.
  assert (FormConfig.fields config = []) as Hfields.
  { unfold config. by rewrite convert_fields, Hnone. }
  split; [done|].
  unfold generateZodSchema, initialValues, buildPayload, collectFields.
  rewrite Hfields. repeat split; done.
Qed.

Lemma form_without_fields_witness :
  generateZodSchema exampleRuntime
    (convertHubspotFormToConfig
       (HubspotFormData.mk "Empty" [HubspotFieldGroup.mk []; HubspotFieldGroup.mk []]))
  = Normal (z_object ∅).
Proof.
  by apply (form_without_fields exampleRuntime
              (HubspotFormData.mk "Empty" [HubspotFieldGroup.mk []; HubspotFieldGroup.mk []])
              hostProps hostPage ∅).
Defined.

Lemma interact_loading
      (submitHubspotForm : SubmissionPayload.t -> Settled SubmissionResult.t)
      (props : Props.t) (page : Page.t) (st : State.t) (i : Interaction) :
  State.loading (interact submitHubspotForm props page st i)
  = State.loading st && negb (settlesFetch i).
Proof.
  destruct i as [[settled|values]|index edit]; cbn [interact step settlesFetch].
  - unfold fetchForm. cbn. by rewrite andb_false_r.
  - rewrite andb_true_r.
    by destruct (onSubmit_keeps_fetch_state submitHubspotForm props page values st).
  - rewrite andb_true_r. destruct (render st); try done.
    destruct (State.formConfig st) as [config|]; [|done].
    destruct (FormConfig.fields config !! index) as [field|]; [|done].
    by destruct (applyEdit _ _ _ _).
Qed.

(** X28. The component shows "Loading form..." from the mount until a
    fetch settles, in any way, and never again after: submits and edits do
    not end the loading, and nothing starts it anew. *)
Theorem loading_until_fetch_settles :
  forall (submitHubspotForm : SubmissionPayload.t -> Settled SubmissionResult.t)
         (props : Props.t) (page : Page.t) (l : list Interaction) (st : State.t),
    State.loading (interactions submitHubspotForm props page l st)
    = State.loading st && forallb (fun i => negb (settlesFetch i)) l /\
    (render (interactions submitHubspotForm props page l State.initial) = LoadingView
     <-> forallb (fun i => negb (settlesFetch i)) l = true).
Proof.
  intros submit props page l.
  assert (forall st,
             State.loading (interactions submit props page l st)
             = State.loading st && forallb (fun i => negb (settlesFetch i)) l)
    as Hloading.
  { unfold interactions. induction l as [|i l IH]; intros st; cbn [fold_left forallb].
    - by rewrite andb_true_r.
    - by rewrite IH, interact_loading, andb_assoc. }
  intros st. split; [apply Hloading|].
  specialize (Hloading State.initial). cbn in Hloading.
  unfold render. rewrite Hloading.
  destruct (forallb _ l); [done|].
  split; [|done].
  destruct (shown _); [done|]. by destruct (State.formConfig _).
Qed.
